(** * visualkeras: the layered view, embedded and verified

    A shallow embedding of [layered_view] (src/visualkeras/layered.py).

    Conventions of the embedding.
    - Parameters annotated [int] are [Z]; parameters annotated [float] and
      every quantity computed from them (box coordinates, the cursor, the
      image bounds before [ceil]) are exact rationals [Q], compared with
      [==].  Python's [/] is rational division, [//] is [Z.div], [%] is
      [Z.modulo] (both round towards minus infinity, like Python's).
    - An exception is a value [Err e] of the [result] type; statements of
      the source are sequenced with [let*].
    - Drawing on the aggdraw/PIL canvas is recorded as a list of drawing
      operations kept in the image, in the order in which they are issued.
      [Image.new] raises [ValueError] when asked for a negative width or
      height, and [flush] raises on a canvas of width or height 0.
    - Names of the helper module [utils] that the function calls
      ([self_multiply], [ColorWheel], [linear_layout],
      [vertical_image_concat]) and the default font are the fields of the
      class [Utils]: every result below holds for any implementation. *)

From Stdlib Require Import ZArith QArith Qround Qminmax Qabs Lia Lqa String DecimalString.
From stdpp Require Import gmap strings list.

Local Open Scope string_scope.
Local Open Scope list_scope.
Local Open Scope Z_scope.

(** ** Exceptions and the error monad *)

(** The exceptions [layered_view] can raise, one constructor per place (or
    kind, for the interpreter's own). *)
Inductive error : Type :=
  | ValueError_draw_shapes      (* line 51 *)
  | RuntimeError_tensor_shape   (* lines 102 and 122 *)
  | ValueError_orientation      (* line 120 *)
  | RuntimeError_spacing_layer  (* lines 245 and 269 *)
  | ValueError_image_size       (* raised by Image.new, lines 163 and 355 *)
  | Error_flush                 (* raised by flush, lines 230 and 375 *)
  | TypeError                   (* raised by the interpreter *)
  | IndexError.                 (* raised by the interpreter *)

Inductive result (A : Type) : Type :=
  | Ok (a : A)
  | Err (e : error).
Arguments Ok {A} a.
Arguments Err {A} e.

Definition bind {A B : Type} (m : result A) (k : A -> result B) : result B :=
  match m with
  | Ok a => k a
  | Err e => Err e
  end.

Notation "'let*' x ':=' m 'in' k" := (bind m (fun x => k))
  (at level 10, x pattern, m at level 100, k at level 200).

Definition is_ok {A : Type} (m : result A) : bool :=
  match m with Ok _ => true | Err _ => false end.

(** ** Python built-ins used by the source *)

(** [l[k]] for a list: negative indices count from the end, anything else
    out of range raises [IndexError]. *)
Definition py_index {A : Type} (l : list A) (k : Z) : result A :=
  let n := Z.of_nat (length l) in
  let j := if k <? 0 then k + n else k in
  if (j <? 0) || (n <=? j) then Err IndexError
  else match l !! Z.to_nat j with
       | Some a => Ok a
       | None => Err IndexError
       end.

(** [d * s] for an entry [d] of a shape tuple: [None * s] raises
    [TypeError]. *)
Definition py_mul (d : option Z) (s : Q) : result Q :=
  match d with
  | Some n => Ok (inject_Z n * s)%Q
  | None => Err TypeError
  end.

(** [max(z)] with a single number as its only argument: the built-in asks
    for an iterable, a number is not one, so the call raises [TypeError]
    whatever the number. *)
Definition py_max1 (z : Q) : result Q := Err TypeError.

(** [str(n)] for an integer. *)
Definition str (n : Z) : string := NilZero.string_of_int (Z.to_int n).

(** [ceil(a / 2)] for integers [a]. *)
Definition ceil_half (a : Z) : Z := Qceiling (inject_Z a / 2).

(** ** Data model *)

(** A colour: a name such as ["black"] or ["#ffd166"], or an (R,G,B,A)
    tuple. *)
Inductive color : Type :=
  | ColorName (s : string)
  | ColorRGBA (r g b a : Z).

(** [layer.output_shape]: a tuple of dimensions ([None] for an unknown
    one), or a list of such tuples. *)
Inductive shape_value : Type :=
  | ShapeTuple (dims : list (option Z))
  | ShapeList (items : list (list (option Z))).

(** A layer of [model.layers].  [ltype] stands for [type(layer)] (and for
    its [__name__]); [layer_spacing] is the attribute [spacing], read only
    on a [SpacingDummyLayer]. *)
Record layer : Type := Layer {
  ltype : string;
  output_shape : shape_value;
  layer_spacing : Z
}.

Definition SpacingDummyLayer : string := "SpacingDummyLayer".

(** One value of the [color_map] dictionary: a dictionary that may hold the
    keys ['fill'] and ['outline']. *)
Record color_entry : Type := ColorEntry {
  entry_fill : option color;
  entry_outline : option color
}.

(** A font, as far as the function uses it: [getsize]. *)
Record ImageFont : Type := Font { getsize : string -> Z * Z }.

(** The keyword arguments of [layered_view]. *)
Record config : Type := Config {
  to_file : option string;
  min_z : Z;
  min_xy : Z;
  max_z : Z;
  max_xy : Z;
  scale_z : Q;
  scale_xy : Q;
  type_ignore : list string;
  index_ignore : list Z;
  color_map : gmap string color_entry;
  one_dim_orientation : string;
  background_fill : color;
  draw_volume : bool;
  draw_reversed : bool;
  draw_shapes : Z;
  padding : Z;
  padding_left : Z;
  padding_vertical : Z;
  spacing : Z;
  draw_funnel : bool;
  shade_step : Q;
  legend : bool;
  font : option ImageFont;
  font_color : color
}.

(** [utils.Box], with the attributes the function sets. *)
Record Box : Type := mkBox {
  x1 : Q;
  y1 : Q;
  x2 : Q;
  y2 : Q;
  de : Q;
  fill : color;
  outline : color;
  shade : Q
}.

(** What is drawn on a canvas. *)
Inductive draw_op : Type :=
  | DrawLine (xa ya xb yb : Q) (pen : color)
  | DrawBox (b : Box) (reversed : bool)
  | DrawText (x y : Q) (txt : string) (ink : color).

(** A PIL image: its size, its background and what was drawn on it. *)
Record Image : Type := mkImage {
  width : Z;
  height : Z;
  background : color;
  ops : list draw_op
}.

(** An image of that size with nothing drawn on it. *)
Definition blank (w h : Z) (bg : color) : Image :=
  {| width := w; height := h; background := bg; ops := [] |}.

(** [Image.new('RGBA', (w, h), fill)]: a negative width or height raises
    [ValueError]. *)
Definition Image_new (w h : Z) (bg : color) : result Image :=
  if (w <? 0) || (h <? 0) then Err ValueError_image_size
  else Ok (blank w h bg).

(** [draw.flush()] on the drawing of an image: it raises when the image
    has no pixel, its width or its height being 0. *)
Definition flush (img : Image) : result unit :=
  if (width img =? 0) || (height img =? 0) then Err Error_flush
  else Ok tt.

Definition draw_on (img : Image) (new_ops : list draw_op) : Image :=
  {| width := width img; height := height img; background := background img;
     ops := ops img ++ new_ops |}.

(** ** The helpers of [utils] the function relies on *)

Class Utils : Type := {
  (** [self_multiply(shape[3:])] *)
  self_multiply : list (option Z) -> result Q;
  (** [ColorWheel()], and [get_color], which may update the wheel *)
  color_wheel : Type;
  ColorWheel : color_wheel;
  get_color : color_wheel -> string -> color * color_wheel;
  (** [ImageFont.load_default()] *)
  load_default : ImageFont;
  (** [linear_layout(patches, max_width, max_height, padding, spacing,
      background_fill, horizontal)] *)
  linear_layout : list Image -> Z -> Z -> Z -> Z -> color -> bool -> Image;
  (** [vertical_image_concat(im1, im2, background_fill)] *)
  vertical_image_concat : Image -> Image -> color -> Image
}.

(** ** Which layers are drawn *)

(** [type(layer) in type_ignore or index in index_ignore] *)
Definition ignored (cfg : config) (index : Z) (l : layer) : bool :=
  bool_decide (ltype l ∈ type_ignore cfg) || bool_decide (index ∈ index_ignore cfg).

(** [type(layer) == SpacingDummyLayer] *)
Definition is_spacing (l : layer) : bool :=
  bool_decide (ltype l = SpacingDummyLayer).

(** The test of lines 241 and 308: the layer gets no box. *)
Definition delimiter (cfg : config) (index : Z) (l : layer) : bool :=
  bool_decide (ltype l ∈ type_ignore cfg) || is_spacing l
  || bool_decide (index ∈ index_ignore cfg).

Definition visible (cfg : config) (index : Z) (l : layer) : bool :=
  negb (delimiter cfg index l).

(** [enumerate(model.layers)], counting from [index]. *)
Fixpoint enumerate_from (index : Z) (layers : list layer) : list (Z * layer) :=
  match layers with
  | [] => []
  | l :: rest => (index, l) :: enumerate_from (index + 1) rest
  end.

Definition enumerate (layers : list layer) : list (Z * layer) :=
  enumerate_from 0 layers.

(** The layers that get a box, in the order of the model. *)
Definition visible_layers (cfg : config) (layers : list layer) : list layer :=
  map snd (filter (fun p => visible cfg (fst p) (snd p) = true) (enumerate layers)).

(** ** Shape resolution (lines 92 to 122) *)

(** Lines 96 to 102: the tuple the sizes are read from. *)
Definition select_shape (s : shape_value) : result (list (option Z)) :=
  match s with
  | ShapeTuple dims => Ok dims
  | ShapeList [t] => Ok t
  | ShapeList _ => Err RuntimeError_tensor_shape
  end.

(** [shape[k]] for [k = 1, 2] on a tuple known to be long enough. *)
Definition dim (shape : list (option Z)) (k : nat) : option Z :=
  default None (shape !! k).

Section Resolve.
Context `{Utils}.
Variable cfg : config.

Local Open Scope Q_scope.

(** [min(max(raw, lo), hi)] *)
Definition clamp (raw lo : Q) (hi : Z) : Q := Qmin (Qmax raw lo) (inject_Z hi).

(** Lines 92 to 122: the size [(x, y, z)] of the box of a layer. *)
Definition resolve_size (l : layer) : result (Q * Q * Q) :=
  let x := inject_Z (min_xy cfg) in
  let y := inject_Z (min_xy cfg) in
  let z := inject_Z (min_z cfg) in
  let* shape := select_shape (output_shape l) in
  if (4 <=? length shape)%nat then
    let* rx := py_mul (dim shape 1) (scale_xy cfg) in
    let x := clamp rx x (max_xy cfg) in
    let* ry := py_mul (dim shape 2) (scale_xy cfg) in
    let y := clamp ry y (max_xy cfg) in
    let* p := self_multiply (drop 3 shape) in
    let z := clamp (p * scale_z cfg) z (max_z cfg) in
    Ok (x, y, z)
  else if (length shape =? 3)%nat then
    let* rx := py_mul (dim shape 1) (scale_xy cfg) in
    let x := clamp rx x (max_xy cfg) in
    let* ry := py_mul (dim shape 2) (scale_xy cfg) in
    let y := clamp ry y (max_xy cfg) in
    let* m := py_max1 z in
    let z := Qmin m (inject_Z (max_z cfg)) in
    Ok (x, y, z)
  else if (length shape =? 2)%nat then
    if String.eqb (one_dim_orientation cfg) "x" then
      let* rx := py_mul (dim shape 1) (scale_xy cfg) in
      Ok (clamp rx x (max_xy cfg), y, z)
    else if String.eqb (one_dim_orientation cfg) "y" then
      let* ry := py_mul (dim shape 1) (scale_xy cfg) in
      Ok (x, clamp ry y (max_xy cfg), z)
    else if String.eqb (one_dim_orientation cfg) "z" then
      let* rz := py_mul (dim shape 1) (scale_z cfg) in
      Ok (x, y, clamp rz z (max_z cfg))
    else Err ValueError_orientation
  else Err RuntimeError_tensor_shape.

End Resolve.

(** ** Layout (lines 55 to 157) *)

(** [a > b] on numbers. *)
Definition Qgtb (a b : Q) : bool := negb (Qle_bool a b).

(** [color_map.get(layer_type, {}).get('fill', dflt)] *)
Definition get_fill (cm : gmap string color_entry) (layer_type : string)
    (dflt : color) : color :=
  default dflt (cm !! layer_type ≫= entry_fill).

(** [color_map.get(layer_type, {}).get('outline', dflt)] *)
Definition get_outline (cm : gmap string color_entry) (layer_type : string)
    (dflt : color) : color :=
  default dflt (cm !! layer_type ≫= entry_outline).

Section Layout.
Context `{Utils}.
Variable cfg : config.

Local Open Scope Q_scope.

(** The local variables of the first loop.  [cmap] is the dictionary
    [color_map], which the loop updates in place. *)
Record layout_state : Type := LayoutState {
  boxes : list Box;
  layer_y : list Q;
  wheel : color_wheel;
  current_z : Q;
  x_off : Q;
  layer_types : list string;
  img_height : Q;
  max_right : Q;
  cmap : gmap string color_entry
}.

(** Lines 55 to 73. *)
Definition layout_init : layout_state :=
  {| boxes := [];
     layer_y := [];
     wheel := ColorWheel;
     current_z := inject_Z (padding cfg + padding_left cfg);
     x_off := -1;
     layer_types := [];
     img_height := 0;
     max_right := 0;
     cmap := color_map cfg |}.

(** Lines 124 to 157: the box of a visible layer of size [(x, y, z)], and
    the state after it. *)
Definition place_box (st : layout_state) (layer_type : string)
    (layer_types' : list string) (x y z : Q) : layout_state :=
  let bde := if draw_volume cfg then x / 3 else 0 in
  let x_off' := if Qeq_bool (x_off st) (-1) then bde / 2 else x_off st in
  let bx1 := current_z st - bde / 2 in
  let by1 := bde in
  let bx2 := bx1 + z in
  let by2 := by1 + y in
  let (wheel_color, wheel') := get_color (wheel st) layer_type in
  let bfill := get_fill (cmap st) layer_type wheel_color in
  let boutline := get_outline (cmap st) layer_type (ColorName "black") in
  let box := {| x1 := bx1; y1 := by1; x2 := bx2; y2 := by2; de := bde;
                fill := bfill; outline := boutline; shade := shade_step cfg |} in
  let hh := by2 - (by1 - bde) in
  {| boxes := boxes st ++ [box];
     layer_y := layer_y st ++ [by2 - (by1 - bde)];
     wheel := wheel';
     current_z := current_z st + (z + inject_Z (spacing cfg));
     x_off := x_off';
     layer_types := layer_types';
     img_height := if Qgtb hh (img_height st) then hh else img_height st;
     max_right := if Qgtb (bx2 + bde) (max_right st) then bx2 + bde
                  else max_right st;
     cmap := <[layer_type := ColorEntry (Some bfill) (Some boutline)]> (cmap st) |}.

(** The body of the loop of line 75, for the layer [l] at [index]. *)
Definition layout_step (st : layout_state) (index : Z) (l : layer)
    : result layout_state :=
  if ignored cfg index l then Ok st
  else if is_spacing l then
    Ok {| boxes := boxes st;
          layer_y := layer_y st;
          wheel := wheel st;
          current_z := current_z st + inject_Z (layer_spacing l);
          x_off := x_off st;
          layer_types := layer_types st;
          img_height := img_height st;
          max_right := max_right st;
          cmap := cmap st |}
  else
    let layer_type := ltype l in
    let layer_types' :=
      if bool_decide (layer_type ∈ layer_types st) then layer_types st
      else layer_types st ++ [layer_type] in
    let* size := resolve_size cfg l in
    let '(x, y, z) := size in
    Ok (place_box st layer_type layer_types' x y z).

(** The loop of line 75 over [enumerate(model.layers)], from [index] on. *)
Fixpoint layout_loop (st : layout_state) (index : Z) (layers : list layer)
    : result layout_state :=
  match layers with
  | [] => Ok st
  | l :: rest =>
      let* st' := layout_step st index l in
      layout_loop st' (index + 1) rest
  end.

Definition layout (layers : list layer) : result layout_state :=
  layout_loop layout_init 0 layers.

(** ** The canvas and the centring pass (lines 159 to 173) *)

(** Line 160 *)
Definition img_width (st : layout_state) : Q :=
  max_right st + x_off st + inject_Z (padding cfg).

(** Lines 161 and 163: the canvas that is asked for. *)
Definition new_canvas (st : layout_state) : Image :=
  blank (Qceiling (img_width st))
        (Qceiling (img_height st + inject_Z (padding_vertical cfg)))
        (background_fill cfg).

(** The body of the loop of line 167. *)
Definition center_box (img : Image) (xoff : Q) (node : Box) (ly : Q) : Box :=
  let y_off := (inject_Z (height img) - ly) / 2 in
  {| x1 := x1 node + xoff;
     y1 := y1 node + y_off;
     x2 := x2 node + xoff;
     y2 := y2 node + y_off;
     de := de node;
     fill := fill node;
     outline := outline node;
     shade := shade node |}.

(** The loop of line 167: [ys] is [layer_y[i:]] for the first box at
    index [i]; reading past its end raises [IndexError]. *)
Fixpoint center_boxes (img : Image) (xoff : Q) (bs : list Box) (ys : list Q)
    : result (list Box) :=
  match bs with
  | [] => Ok []
  | node :: bs' =>
      match ys with
      | [] => Err IndexError
      | ly :: ys' =>
          let* rest := center_boxes img xoff bs' ys' in
          Ok (center_box img xoff node ly :: rest)
      end
  end.

End Layout.

(** ** Drawing the boxes and the funnels (lines 177 to 230) *)

Section Drawing.
Variable cfg : config.

Local Open Scope Q_scope.

(** Lines 183 to 189: the two back connections of the reversed view. *)
Definition back_lines (last_box box : Box) : list draw_op :=
  [ DrawLine (x2 last_box - de last_box) (y1 last_box - de last_box)
             (x1 box - de box) (y1 box - de box) (outline box);
    DrawLine (x2 last_box - de last_box) (y2 last_box - de last_box)
             (x1 box - de box) (y2 box - de box) (outline box) ].

(** Lines 198 to 205: the two front connections of the reversed view. *)
Definition front_lines (last_box box : Box) : list draw_op :=
  [ DrawLine (x1 last_box) (y1 last_box) (x2 box) (y1 box) (outline box);
    DrawLine (x1 last_box) (y2 last_box) (x2 box) (y2 box) (outline box) ].

(** Lines 214 to 224: the four connections of the forward view. *)
Definition funnel_lines (last_box box : Box) : list draw_op :=
  [ DrawLine (x2 last_box + de last_box) (y1 last_box - de last_box)
             (x1 box + de box) (y1 box - de box) (outline box);
    DrawLine (x2 last_box + de last_box) (y2 last_box - de last_box)
             (x1 box + de box) (y2 box - de box) (outline box);
    DrawLine (x2 last_box) (y2 last_box) (x1 box) (y2 box) (outline box);
    DrawLine (x2 last_box) (y1 last_box) (x1 box) (y1 box) (outline box) ].

(** [if last_box is not None and draw_funnel: ...] *)
Definition connect (lines : Box -> Box -> list draw_op)
    (last_box : option Box) (box : Box) : list draw_op :=
  match last_box with
  | Some lb => if draw_funnel cfg then lines lb box else []
  | None => []
  end.

(** The loop of line 180. *)
Fixpoint draw_back (last_box : option Box) (bs : list Box) : list draw_op :=
  match bs with
  | [] => []
  | box :: rest => connect back_lines last_box box ++ draw_back (Some box) rest
  end.

(** The loop of line 195, over the boxes already reversed. *)
Fixpoint draw_front (last_box : option Box) (bs : list Box) : list draw_op :=
  match bs with
  | [] => []
  | box :: rest =>
      connect front_lines last_box box ++ [DrawBox box true]
      ++ draw_front (Some box) rest
  end.

(** The loop of line 211. *)
Fixpoint draw_forward (last_box : option Box) (bs : list Box) : list draw_op :=
  match bs with
  | [] => []
  | box :: rest =>
      connect funnel_lines last_box box ++ [DrawBox box false]
      ++ draw_forward (Some box) rest
  end.

(** Lines 177 to 228. *)
Definition draw_boxes (bs : list Box) : list draw_op :=
  if draw_reversed cfg then draw_back None bs ++ draw_front None (rev bs)
  else draw_forward None bs.

End Drawing.

(** ** The text of a shape (lines 286 to 296 and 321 to 331) *)

Definition newline : string := String (Ascii.ascii_of_nat 10) EmptyString.

(** The loop of line 291 from [ii] on, [n] being [len(output_shape)]. *)
Fixpoint output_shape_txt (n ii : Z) (dims : list Z) : string :=
  match dims with
  | [] => EmptyString
  | d :: rest =>
      str d
      +:+ (if ii <? n - 2 then "x" else EmptyString)
      +:+ (if ii =? n - 2 then newline else EmptyString)
      +:+ output_shape_txt n (ii + 1) rest
  end.

Definition dims_txt (dims : list Z) : string :=
  output_shape_txt (Z.of_nat (length dims)) 0 dims.

(** [[x for x in t if x is not None]] *)
Definition drop_none (t : list (option Z)) : list Z := omap id t.

(** Lines 286 to 296: [output_shape[0]] raises [IndexError] on an empty
    list. *)
Definition shape_text (s : shape_value) : result string :=
  match s with
  | ShapeTuple t =>
      match drop_none t with
      | [] => Err IndexError
      | d :: ds => Ok (dims_txt (d :: ds))
      end
  | ShapeList [] => Err IndexError
  | ShapeList (t :: _) => Ok (dims_txt (drop_none t))
  end.

(** ** Shape labels (lines 232 to 333) *)

Section Labels.
Variable cfg : config.

Local Open Scope Q_scope.

(** [(box.x1 + (box.x2 - box.x1) / 2, box.y2 + 20)] *)
Definition below (box : Box) : Q * Q :=
  (x1 box + (x2 box - x1 box) / 2, y2 box + 20).

(** The same point, [text_x] moved right by [shift]. *)
Definition below_shifted (box : Box) (shift : Z) : Q * Q :=
  (x1 box + (x2 box - x1 box) / 2 + inject_Z shift, y2 box + 20).

(** Lines 315 and 316. *)
Definition above (box : Box) : Q * Q :=
  (x1 box - de box + (x2 box - x1 box) / 2, y1 box - de box - 20).

(** Lines 241 to 263: the first [if] of the loop body.  The result is the
    new [i], the new [spacing_layer_index] and, when [draw_text] is set,
    [(text_x, text_y)]. *)
Definition segment_end (bs : list Box) (i spacing_layer_index index : Z)
    (l : layer) : result (Z * Z * option (Q * Q)) :=
  if delimiter cfg index l then
    let idx1 := spacing_layer_index in
    let idx2 := i in
    if (idx2 - idx1 <=? 0)%Z then Err RuntimeError_spacing_layer
    else if ((idx2 - idx1) mod 2 =? 1)%Z then
      let idx := (idx1 + ceil_half (idx2 - idx1))%Z in
      let* box := py_index bs idx in
      Ok (i, i, Some (below box))
    else
      let idx := (idx1 + (idx2 - idx1) / 2)%Z in
      let* box := py_index bs idx in
      Ok (i, i, Some (below_shifted box (spacing cfg)))
  else Ok ((i + 1)%Z, spacing_layer_index, None).

(** Lines 265 to 281: the second [if], at the last layer of the model. *)
Definition model_end (bs : list Box) (n_layers i spacing_layer_index index : Z)
    (text : option (Q * Q)) : result (option (Q * Q)) :=
  if (index =? n_layers - 1)%Z then
    let idx1 := spacing_layer_index in
    let idx2 := i in
    if (idx2 - idx1 <=? 0)%Z then Err RuntimeError_spacing_layer
    else if (idx2 - (idx1 mod 2) =? 1)%Z then
      let* box := py_index bs i in
      Ok (Some (below box))
    else
      let* box := py_index bs i in
      Ok (Some (below_shifted box (padding cfg)))
  else Ok text.

(** Lines 283 to 299: the text is that of the shape of the layer the
    loop is at. *)
Definition draw_label (l : layer) (text : option (Q * Q)) : result (list draw_op) :=
  match text with
  | Some (text_x, text_y) =>
      let* txt := shape_text (output_shape l) in
      Ok [DrawText text_x text_y txt (font_color cfg)]
  | None => Ok []
  end.

(** The loop of line 238, from the layer at [index] on. *)
Fixpoint grouped_labels (bs : list Box) (n_layers i spacing_layer_index index : Z)
    (layers : list layer) : result (list draw_op) :=
  match layers with
  | [] => Ok []
  | l :: rest =>
      let* r := segment_end bs i spacing_layer_index index l in
      let '(i', sli', text) := r in
      let* text' := model_end bs n_layers i' sli' index text in
      let* drawn := draw_label l text' in
      let* more := grouped_labels bs n_layers i' sli' (index + 1) rest in
      Ok (drawn ++ more)
  end.

(** The loop of line 306, from the layer at [index] on. *)
Fixpoint box_labels (bs : list Box) (i index : Z) (layers : list layer)
    : result (list draw_op) :=
  match layers with
  | [] => Ok []
  | l :: rest =>
      if delimiter cfg index l then box_labels bs i (index + 1) rest
      else
        let i' := (i + 1)%Z in
        let* box := py_index bs i' in
        let text :=
          if (draw_shapes cfg =? 2)%Z && (i' mod 2 =? 1)%Z then above box
          else below box in
        let* txt := shape_text (output_shape l) in
        let* more := box_labels bs i' (index + 1) rest in
        Ok (DrawText (fst text) (snd text) txt (font_color cfg) :: more)
  end.

(** Lines 232 to 333. *)
Definition shape_labels (bs : list Box) (layers : list layer)
    : result (list draw_op) :=
  if (draw_shapes cfg =? 3)%Z then
    grouped_labels bs (Z.of_nat (length layers)) (-1) (-1) 0 layers
  else if (draw_shapes cfg =? 1)%Z || (draw_shapes cfg =? 2)%Z then
    box_labels bs (-1) 0 layers
  else Ok [].

End Labels.

(** ** The legend (lines 336 to 382) *)

Section Legend.
Context `{Utils}.
Variable cfg : config.

Local Open Scope Q_scope.

(** Lines 360 to 368: the swatch of a layer type. *)
Definition legend_box (cm : gmap string color_entry) (cube_size lde : Z)
    (layer_type : string) : Box :=
  {| x1 := inject_Z cube_size;
     x2 := inject_Z cube_size + inject_Z cube_size;
     y1 := inject_Z lde;
     y2 := inject_Z lde + inject_Z cube_size;
     de := inject_Z lde;
     shade := shade_step cfg;
     fill := get_fill cm layer_type (ColorName "#000000");
     outline := get_outline cm layer_type (ColorName "#000000") |}.

(** The body of the loop of line 349. *)
Definition legend_patch (fnt : ImageFont) (cm : gmap string color_entry)
    (text_height cube_size lde : Z) (layer_type : string) : Image :=
  let label := layer_type in
  let text_size := getsize fnt label in
  let w := (2 * cube_size + lde + spacing cfg + fst text_size)%Z in
  let h := (cube_size + lde)%Z in
  let box := legend_box cm cube_size lde layer_type in
  let text_x := x2 box + de box + inject_Z (spacing cfg) in
  let text_y := (inject_Z h - inject_Z text_height) / 2 in
  draw_on (blank w h (background_fill cfg))
          [DrawBox box (draw_reversed cfg);
           DrawText text_x text_y label (font_color cfg)].

(** Lines 337 to 377. *)
Definition legend_patches (cm : gmap string color_entry) (types : list string)
    : list Image :=
  let fnt := default load_default (font cfg) in
  let text_height := snd (getsize fnt "Ag") in
  let cube_size := text_height in
  let lde := if draw_volume cfg then (cube_size / 2)%Z else 0%Z in
  map (legend_patch fnt cm text_height cube_size lde) types.

(** Lines 355, 356 and 375, for one patch: its two images, of the same
    size, are created, and what was drawn is flushed. *)
Definition patch_drawn (patch : Image) : result unit :=
  let* _ := Image_new (width patch) (height patch) (background patch) in
  flush patch.

(** The same for the patches of the loop of line 349, one after the
    other. *)
Fixpoint patches_drawn (patches : list Image) : result unit :=
  match patches with
  | [] => Ok tt
  | patch :: rest => let* _ := patch_drawn patch in patches_drawn rest
  end.

(** Lines 336 to 382. *)
Definition add_legend (img : Image) (cm : gmap string color_entry)
    (types : list string) : result Image :=
  if legend cfg then
    let patches := legend_patches cm types in
    let* _ := patches_drawn patches in
    let legend_image :=
      linear_layout patches (width img) (height img)
                    (padding cfg) (spacing cfg) (background_fill cfg) true in
    Ok (vertical_image_concat img legend_image (background_fill cfg))
  else Ok img.

End Legend.

(** ** The function *)

Section LayeredView.
Context `{Utils}.
Variable cfg : config.

(** Lines 50 and 51. *)
Definition check_draw_shapes : result unit :=
  if (draw_shapes cfg <? 0) || (3 <? draw_shapes cfg)
  then Err ValueError_draw_shapes
  else Ok tt.

(** Lines 159 to 173: the canvas that is asked for and the boxes moved to
    their place on it. *)
Definition centered (st : layout_state) : result (Image * list Box) :=
  let img := new_canvas cfg st in
  let* bs := center_boxes img (x_off st) (boxes st) (layer_y st) in
  Ok (img, bs).

(** [layered_view(model, ...)], [model] standing for [model.layers].
    Writing the image to [to_file] has no effect on the value returned. *)
Definition layered_view (model : list layer) : result Image :=
  let* _ := check_draw_shapes in
  let* st := layout cfg model in
  let* img := Image_new (Qceiling (img_width cfg st))
                        (Qceiling (img_height st
                                   + inject_Z (padding_vertical cfg)))
                        (background_fill cfg) in
  let* bs := center_boxes img (x_off st) (boxes st) (layer_y st) in
  let img := draw_on img (draw_boxes cfg bs) in
  let* _ := flush img in
  let* labels := shape_labels cfg bs model in
  let img := draw_on img labels in
  add_legend cfg img (cmap st) (layer_types st).

End LayeredView.

(** ** Concrete models, to run the function on *)

(** Modelled from the spec: [self_multiply] is the product of the
    dimensions it is given (section 4.1, [product(dims[3:])]); an unknown
    dimension cannot be multiplied. *)
Fixpoint product (dims : list (option Z)) : result Q :=
  match dims with
  | [] => Ok 1%Q
  | Some d :: rest => let* p := product rest in Ok (inject_Z d * p)%Q
  | None :: _ => Err TypeError
  end.

(** Stand-ins for the other helpers, used only to run the function on
    the examples below: a colour wheel that hands out one colour per layer
    type, a default font of fixed width, and a legend layout that only
    records sizes. *)
#[local] Instance example_utils : Utils := {|
  self_multiply := product;
  color_wheel := unit;
  ColorWheel := tt;
  get_color := fun w layer_type => (ColorName ("wheel:" +:+ layer_type), w);
  load_default := Font (fun s => (6 * Z.of_nat (String.length s), 11));
  linear_layout := fun patches max_width max_height pad sp bg horizontal =>
    blank max_width 11 bg;
  vertical_image_concat := fun im1 im2 bg =>
    {| width := Z.max (width im1) (width im2);
       height := height im1 + height im2;
       background := bg;
       ops := ops im1 |}
|}.

(** The default values of the keyword arguments (lines 8 to 16). *)
Definition default_config : config :=
  {| to_file := None;
     min_z := 20; min_xy := 20; max_z := 400; max_xy := 2000;
     scale_z := 1 # 10; scale_xy := 4;
     type_ignore := []; index_ignore := [];
     color_map := ∅;
     one_dim_orientation := "z";
     background_fill := ColorName "white";
     draw_volume := true; draw_reversed := false; draw_shapes := 0;
     padding := 10; padding_left := 0; padding_vertical := 10;
     spacing := 10; draw_funnel := true; shade_step := 10; legend := false;
     font := None; font_color := ColorName "black" |}.

Definition with_draw_shapes (cfg : config) (mode : Z) : config :=
  {| to_file := to_file cfg;
     min_z := min_z cfg; min_xy := min_xy cfg; max_z := max_z cfg;
     max_xy := max_xy cfg; scale_z := scale_z cfg; scale_xy := scale_xy cfg;
     type_ignore := type_ignore cfg; index_ignore := index_ignore cfg;
     color_map := color_map cfg;
     one_dim_orientation := one_dim_orientation cfg;
     background_fill := background_fill cfg;
     draw_volume := draw_volume cfg; draw_reversed := draw_reversed cfg;
     draw_shapes := mode;
     padding := padding cfg; padding_left := padding_left cfg;
     padding_vertical := padding_vertical cfg;
     spacing := spacing cfg; draw_funnel := draw_funnel cfg;
     shade_step := shade_step cfg; legend := legend cfg;
     font := font cfg; font_color := font_color cfg |}.

Definition with_orientation (cfg : config) (axis : string) : config :=
  {| to_file := to_file cfg;
     min_z := min_z cfg; min_xy := min_xy cfg; max_z := max_z cfg;
     max_xy := max_xy cfg; scale_z := scale_z cfg; scale_xy := scale_xy cfg;
     type_ignore := type_ignore cfg; index_ignore := index_ignore cfg;
     color_map := color_map cfg;
     one_dim_orientation := axis;
     background_fill := background_fill cfg;
     draw_volume := draw_volume cfg; draw_reversed := draw_reversed cfg;
     draw_shapes := draw_shapes cfg;
     padding := padding cfg; padding_left := padding_left cfg;
     padding_vertical := padding_vertical cfg;
     spacing := spacing cfg; draw_funnel := draw_funnel cfg;
     shade_step := shade_step cfg; legend := legend cfg;
     font := font cfg; font_color := font_color cfg |}.

(** [Dense(units)], [Conv2D] with output [(None, h, w, c)], an output of
    rank 3 such as that of [Conv1D], and [SpacingDummyLayer(spacing)]
    placed after a layer of output shape [(None, units)]. *)
Definition Dense (units : Z) : layer :=
  Layer "Dense" (ShapeTuple [None; Some units]) 0.

Definition Conv2D (h w c : Z) : layer :=
  Layer "Conv2D" (ShapeTuple [None; Some h; Some w; Some c]) 0.

Definition Conv1D (steps filters : Z) : layer :=
  Layer "Conv1D" (ShapeTuple [None; Some steps; Some filters]) 0.

Definition Spacing (units sp : Z) : layer :=
  Layer SpacingDummyLayer (ShapeTuple [None; Some units]) sp.


(** ** Properties stated on the embedding *)

(** How many of the three sizes are not the configured minimum. *)
Definition off_minimum (cfg : config) (size : Q * Q * Q) : nat :=
  let '(x, y, z) := size in
  ((if Qeq_bool x (inject_Z (min_xy cfg)) then 0 else 1)
   + (if Qeq_bool y (inject_Z (min_xy cfg)) then 0 else 1)
   + (if Qeq_bool z (inject_Z (min_z cfg)) then 0 else 1))%nat.


(** The least and the greatest number of a list. *)
Fixpoint minimum (qs : list Q) : option Q :=
  match qs with
  | [] => None
  | q :: rest =>
      match minimum rest with
      | None => Some q
      | Some m => Some (Qmin q m)
      end
  end.

Fixpoint maximum (qs : list Q) : option Q :=
  match qs with
  | [] => None
  | q :: rest =>
      match maximum rest with
      | None => Some q
      | Some m => Some (Qmax q m)
      end
  end.

Definition option_Qeq (a b : option Q) : Prop :=
  match a, b with
  | Some p, Some q => (p == q)%Q
  | None, None => True
  | _, _ => False
  end.

(** The room above a box, from the top of the canvas to the top of its
    extruded face, and the room below it. *)
Definition room_above (b : Box) : Q := (y1 b - de b)%Q.

Definition room_below (img : Image) (b : Box) : Q :=
  (inject_Z (height img) - y2 b)%Q.

(** The quantity section 8 of the specification compares the room above
    with, for a canvas height [h]. *)
Definition claimed_room_below (h : Q) (b : Box) : Q := (h - (y2 b + de b))%Q.

(** Section 8, vertical centring, with a tolerance of one pixel (what
    [ceil] can add to the height). *)
Definition balanced_as_claimed (h : Q) (bs : list Box) : Prop :=
  match minimum (map room_above bs), maximum (map (claimed_room_below h) bs) with
  | Some a, Some b => (Qabs (a - b) <= 1)%Q
  | _, _ => True
  end.

(** The box [b] has the size resolved for the layer [l]. *)
Definition box_of_layer `{Utils} (cfg : config) (l : layer) (b : Box) : Prop :=
  exists x y z, resolve_size cfg l = Ok (x, y, z)
    /\ (x2 b - x1 b == z)%Q /\ (y2 b - y1 b == y)%Q
    /\ de b = (if draw_volume cfg then x / 3 else 0)%Q.

(** Nothing moves the cursor to the left. *)
Definition advances_nonneg (cfg : config) (model : list layer) : Prop :=
  0 <= spacing cfg /\ 0 <= min_z cfg /\ 0 <= max_z cfg
  /\ Forall (fun l => is_spacing l = true -> 0 <= layer_spacing l) model.

(** Before the centring pass a box starts [de] below the top, and
    [layer_y] holds its height with the extruded face. *)
Definition uncentred (b : Box) (ly : Q) : Prop :=
  y1 b = de b /\ ly = (y2 b - (y1 b - de b))%Q.

(** The colour map holds, for the type of the layer [l], the colours of the
    box [b], and the legend knows the type. *)
Definition colored `{Utils} (st : layout_state) (l : layer) (b : Box) : Prop :=
  cmap st !! ltype l = Some (ColorEntry (Some (fill b)) (Some (outline b)))
  /\ ltype l ∈ layer_types st.

(** The layers that get no box, in the order of the model. *)
Definition delimiters_from (cfg : config) (index : Z) (layers : list layer)
    : list layer :=
  map snd (filter (fun p => delimiter cfg (fst p) (snd p) = true)
                  (enumerate_from index layers)).

Definition delimiters (cfg : config) (model : list layer) : list layer :=
  delimiters_from cfg 0 model.

(** The last layer of the model, if it has one. *)
Definition last_layer (model : list layer) : list layer :=
  match last model with
  | Some l => [l]
  | None => []
  end.

(** [op] draws the text of the output shape of the layer [l]. *)
Definition label_of (cfg : config) (op : draw_op) (l : layer) : Prop :=
  exists x y txt,
    op = DrawText x y txt (font_color cfg)
    /\ shape_text (output_shape l) = Ok txt.

(** Two layers without a box and no visible layer between them. *)
Definition empty_segment (cfg : config) (model : list layer) : Prop :=
  exists (a b : nat) (la lb : layer),
    (a < b)%nat
    /\ model !! a = Some la /\ model !! b = Some lb
    /\ delimiter cfg (Z.of_nat a) la = true
    /\ delimiter cfg (Z.of_nat b) lb = true
    /\ forall (k : nat) (lk : layer),
         (a < k < b)%nat -> model !! k = Some lk ->
         visible cfg (Z.of_nat k) lk = false.

(** Every layer of the model is visible. *)
Definition all_visible (cfg : config) (model : list layer) : Prop :=
  Forall (fun p => visible cfg (fst p) (snd p) = true) (enumerate model).

(** Where lines 271 to 280 put the label of a model of [n] visible layers:
    under the box [box], moved right by [padding] unless [n] is 3. *)
Definition final_anchor (cfg : config) (n : nat) (box : Box) : Q * Q :=
  if (Z.of_nat n =? 3) then below box else below_shifted box (padding cfg).

(** ** Further properties stated on the embedding *)

(** [q] lies between the integers [lo] and [hi]. *)
Definition within (lo hi : Z) (q : Q) : Prop :=
  (inject_Z lo <= q)%Q /\ (q <= inject_Z hi)%Q.

(** None of the four size bounds is negative. *)
Definition bounds_nonneg (cfg : config) : Prop :=
  0 <= min_xy cfg /\ 0 <= max_xy cfg /\ 0 <= min_z cfg /\ 0 <= max_z cfg.

(** A box has its corners in order and a depth that is not negative. *)
Definition well_formed (b : Box) : Prop :=
  (x1 b <= x2 b)%Q /\ (y1 b <= y2 b)%Q /\ (0 <= de b)%Q.


(** What a drawing operation is. *)
Definition is_text (op : draw_op) : bool :=
  match op with DrawText _ _ _ _ => true | _ => false end.

Definition is_line (op : draw_op) : bool :=
  match op with DrawLine _ _ _ _ _ => true | _ => false end.

(** The boxes an image was asked to draw, in the order of the calls, each
    with the [draw_reversed] argument of its call. *)
Definition boxes_drawn (operations : list draw_op) : list (Box * bool) :=
  omap (fun op => match op with DrawBox b r => Some (b, r) | _ => None end)
       operations.



(** How many lines an image was asked to draw. *)
Definition lines_drawn (operations : list draw_op) : nat :=
  length (filter (fun op => is_line op = true) operations).

(** The pairs of neighbours among [n] boxes following [last_box]. *)
Definition neighbours (last_box : option Box) (n : nat) : nat :=
  match last_box with
  | Some _ => n
  | None => pred n
  end.

(** The default arguments, with [draw_reversed=True]. *)
Definition reversed_config : config :=
  {| to_file := None;
     min_z := 20; min_xy := 20; max_z := 400; max_xy := 2000;
     scale_z := 1 # 10; scale_xy := 4;
     type_ignore := []; index_ignore := [];
     color_map := ∅;
     one_dim_orientation := "z";
     background_fill := ColorName "white";
     draw_volume := true; draw_reversed := true; draw_shapes := 0;
     padding := 10; padding_left := 0; padding_vertical := 10;
     spacing := 10; draw_funnel := true; shade_step := 10; legend := false;
     font := None; font_color := ColorName "black" |}.

(** Lines 312 to 316: where the label of the box of index [k] goes, below
    it, or above it for an odd [k] when [draw_shapes] is 2. *)
Definition label_point (cfg : config) (k : Z) (b : Box) : Q * Q :=
  if (draw_shapes cfg =? 2) && (k mod 2 =? 1) then above b else below b.

(** The visible layers among [layers], the first of which is at [index]. *)
Definition visible_from (cfg : config) (index : Z) (layers : list layer)
    : list layer :=
  map snd (filter (fun p => visible cfg (fst p) (snd p) = true)
                  (enumerate_from index layers)).

(** The strings of a list without their repetitions, each at the place
    where it first appears. *)
Fixpoint first_appearances (l : list string) : list string :=
  match l with
  | [] => []
  | x :: rest => x :: filter (fun y => y <> x) (first_appearances rest)
  end.

(** The outline the caller's [color_map] asks for a type, ['black']
    without one, and the fill it asks for, if any. *)
Definition wanted_outline (cfg : config) (layer_type : string) : color :=
  get_outline (color_map cfg) layer_type (ColorName "black").

Definition wanted_fill (cfg : config) (layer_type : string) : option color :=
  color_map cfg !! layer_type ≫= entry_fill.

(** The default arguments, with a [color_map] that gives the fill of
    [Dense] and both colours of [Dropout]. *)
Definition painted_config : config :=
  {| to_file := None;
     min_z := 20; min_xy := 20; max_z := 400; max_xy := 2000;
     scale_z := 1 # 10; scale_xy := 4;
     type_ignore := []; index_ignore := [];
     color_map :=
       <["Dense" := ColorEntry (Some (ColorName "red")) None]>
         (<["Dropout" := ColorEntry (Some (ColorName "grey"))
                                    (Some (ColorName "blue"))]> ∅);
     one_dim_orientation := "z";
     background_fill := ColorName "white";
     draw_volume := true; draw_reversed := false; draw_shapes := 0;
     padding := 10; padding_left := 0; padding_vertical := 10;
     spacing := 10; draw_funnel := true; shade_step := 10; legend := false;
     font := None; font_color := ColorName "black" |}.

(** The model without the layers whose type is in [type_ignore]. *)
Definition without_ignored (cfg : config) (model : list layer) : list layer :=
  filter (fun l => ltype l ∉ type_ignore cfg) model.

(** The default arguments, with [type_ignore=[Dropout]] and
    [draw_shapes=1]. *)
Definition ignoring_config : config :=
  {| to_file := None;
     min_z := 20; min_xy := 20; max_z := 400; max_xy := 2000;
     scale_z := 1 # 10; scale_xy := 4;
     type_ignore := ["Dropout"]; index_ignore := [];
     color_map := ∅;
     one_dim_orientation := "z";
     background_fill := ColorName "white";
     draw_volume := true; draw_reversed := false; draw_shapes := 1;
     padding := 10; padding_left := 0; padding_vertical := 10;
     spacing := 10; draw_funnel := true; shade_step := 10; legend := false;
     font := None; font_color := ColorName "black" |}.

(** The model begins or ends with a layer that gets no box. *)
Definition open_ended (cfg : config) (model : list layer) : Prop :=
  (exists l rest, model = l :: rest /\ delimiter cfg 0 l = true)
  \/ (exists l, last model = Some l
                /\ delimiter cfg (Z.of_nat (length model) - 1) l = true).

(** From [index] on, every layer without a box follows a visible layer
    and the last layer is visible; [after_delimiter] tells whether the
    layer before [index] had no box (or there is none). *)
Fixpoint well_segmented (cfg : config) (after_delimiter : bool) (index : Z)
    (layers : list layer) : bool :=
  match layers with
  | [] => negb after_delimiter
  | l :: rest =>
      if delimiter cfg index l
      then negb after_delimiter && well_segmented cfg true (index + 1) rest
      else well_segmented cfg false (index + 1) rest
  end.

(** The canvas asked for after the layout has a width and a height above
    0: [Image.new] and [flush] accept it. *)
Definition canvas_drawable `{Utils} (cfg : config) (st : layout_state) : Prop :=
  0 < width (new_canvas cfg st) /\ 0 < height (new_canvas cfg st).


(** * Results *)

(** ** The embedding on examples *)

(** The sizes of the three layers of section 8 of the specification. *)
Example sizes_of_the_chain :
  map (resolve_size default_config) [Conv2D 28 28 3; Dense 128; Dense 10]
  = [Ok (112, 112, 20); Ok (20, 20, 20); Ok (20, 20, 20)]%Q.
Proof. reflexivity. Qed.

(** Their canvas: 122 by 160 pixels. *)
Example canvas_of_the_chain :
  (let* img := layered_view default_config [Conv2D 28 28 3; Dense 128; Dense 10] in
   Ok (height img)) = Ok 160.
Proof. vm_compute. reflexivity. Qed.

(** The text of a shape: a line break before the last dimension. *)
Example text_of_a_shape :
  shape_text (ShapeTuple [None; Some 28; Some 28; Some 3])
  = Ok ("28x28" +:+ newline +:+ "3")
  /\ shape_text (ShapeList [[None; Some 128]]) = Ok "128"
  /\ shape_text (ShapeTuple [None]) = Err IndexError.
Proof. repeat split. Qed.

(** Negative indices of a list count from its end. *)
Example index_from_the_end :
  py_index [10; 20; 30] (-1) = Ok 30 /\ py_index [10; 20; 30] 3 = Err IndexError
  /\ py_index [10; 20; 30] (-4) = Err IndexError.
Proof. repeat split. Qed.

(** ** The error monad *)

Lemma bind_Ok {A B : Type} (m : result A) (k : A -> result B) (b : B) :
  bind m k = Ok b -> exists a, m = Ok a /\ k a = Ok b.
Proof.
  destruct m as [a|e]; simpl; intros Hk; [eauto | discriminate].
Qed.

Lemma bind_Err {A B : Type} (m : result A) (k : A -> result B) (e : error) :
  bind m k = Err e -> m = Err e \/ exists a, m = Ok a /\ k a = Err e.
Proof.
  destruct m as [a|e']; simpl; intros Hk; [right; eauto | left; congruence].
Qed.

Ltac bind_inv H :=
  let a := fresh "a" in
  let Ha := fresh "Ha" in
  apply bind_Ok in H; destruct H as (a & Ha & H).

(** ** The check of [draw_shapes] *)

Lemma check_draw_shapes_spec (cfg : config) :
  ((draw_shapes cfg < 0 \/ 3 < draw_shapes cfg) ->
     check_draw_shapes cfg = Err ValueError_draw_shapes)
  /\ (0 <= draw_shapes cfg <= 3 -> check_draw_shapes cfg = Ok tt).
Proof.
  unfold check_draw_shapes. split; intros Hd.
  - replace ((draw_shapes cfg <? 0) || (3 <? draw_shapes cfg)) with true;
      [reflexivity |].
    symmetry. apply orb_true_iff. destruct Hd; [left | right]; lia.
  - replace ((draw_shapes cfg <? 0) || (3 <? draw_shapes cfg)) with false;
      [reflexivity |].
    symmetry. apply orb_false_iff. split; lia.
Qed.

(** C7.  A value of [draw_shapes] below 0 or above 3 makes [layered_view]
    raise the [ValueError] of line 51 whatever the model, so before the
    layout, the canvas and any drawing; no image is returned.  For the
    values 0 to 3 the check passes. *)
Theorem draw_shapes_checked `{Utils} (cfg : config) (model : list layer) :
  ((draw_shapes cfg < 0 \/ 3 < draw_shapes cfg) ->
     layered_view cfg model = Err ValueError_draw_shapes)
  /\ (0 <= draw_shapes cfg <= 3 -> check_draw_shapes cfg = Ok tt).
Proof.
  split; intros Hd.
  - unfold layered_view.
    rewrite (proj1 (check_draw_shapes_spec cfg) Hd). reflexivity.
  - apply check_draw_shapes_spec, Hd.
Qed.

Lemma draw_shapes_checked_witness :
  layered_view (with_draw_shapes default_config 4) [Dense 10]
    = Err ValueError_draw_shapes
  /\ check_draw_shapes (with_draw_shapes default_config 3) = Ok tt.
Proof.
  split.
  - apply (proj1 (draw_shapes_checked (with_draw_shapes default_config 4) [Dense 10])).
    right. simpl. lia.
  - apply (proj2 (draw_shapes_checked (with_draw_shapes default_config 3) [])).
    simpl. lia.
Defined.

(** ** Shape resolution *)

(** C4.  On an output shape of rank 3 the size is never computed: line 111
    calls [max] with the single number [z], and the call raises
    [TypeError] (as does an unknown dimension on lines 109 and 110). *)
Theorem rank3_raises `{Utils} (cfg : config) (l : layer) (shape : list (option Z)) :
  select_shape (output_shape l) = Ok shape ->
  length shape = 3%nat ->
  resolve_size cfg l = Err TypeError.
Proof.
  intros Hs Hlen. unfold resolve_size. rewrite Hs. simpl. rewrite Hlen. simpl.
  destruct (py_mul (dim shape 1) (scale_xy cfg)) as [rx|e] eqn:Ex; simpl.
  - destruct (py_mul (dim shape 2) (scale_xy cfg)) as [ry|e] eqn:Ey; simpl;
      [reflexivity |].
    destruct (dim shape 2); simpl in Ey; congruence.
  - destruct (dim shape 1); simpl in Ex; congruence.
Qed.

Lemma rank3_raises_witness :
  resolve_size default_config (Conv1D 28 64) = Err TypeError.
Proof.
  apply (rank3_raises default_config (Conv1D 28 64) [None; Some 28; Some 64]);
    reflexivity.
Defined.

(** C3, as the code has it.  On an output shape of rank 2 the two sizes
    that [one_dim_orientation] does not select are exactly their minimum,
    and the selected one is [dim1] times its scale, clamped between its
    minimum and its maximum (so it is the minimum again when the scaled
    dimension does not exceed it).  An orientation other than x, y and z
    raises the [ValueError] of line 120. *)
Theorem rank2_size `{Utils} (cfg : config) (l : layer) (shape : list (option Z)) :
  select_shape (output_shape l) = Ok shape ->
  length shape = 2%nat ->
  let mxy := inject_Z (min_xy cfg) in
  let mz := inject_Z (min_z cfg) in
  match resolve_size cfg l with
  | Ok (x, y, z) =>
      exists d, dim shape 1 = Some d /\
        ((one_dim_orientation cfg = "x"
          /\ x = clamp (inject_Z d * scale_xy cfg) mxy (max_xy cfg)
          /\ y = mxy /\ z = mz)
         \/ (one_dim_orientation cfg = "y"
             /\ x = mxy
             /\ y = clamp (inject_Z d * scale_xy cfg) mxy (max_xy cfg)
             /\ z = mz)
         \/ (one_dim_orientation cfg = "z"
             /\ x = mxy /\ y = mxy
             /\ z = clamp (inject_Z d * scale_z cfg) mz (max_z cfg)))
  | Err e =>
      (e = ValueError_orientation
       /\ one_dim_orientation cfg ∉ ["x"; "y"; "z"])
      \/ (e = TypeError /\ dim shape 1 = None
          /\ one_dim_orientation cfg ∈ ["x"; "y"; "z"])
  end.
Proof.
  intros Hs Hlen mxy mz. unfold resolve_size. rewrite Hs. simpl.
  rewrite Hlen. simpl.
  destruct (String.eqb (one_dim_orientation cfg) "x") eqn:Ox.
  { apply String.eqb_eq in Ox.
    destruct (dim shape 1) as [d|]; simpl.
    - exists d. split; [reflexivity |]. left. auto.
    - right. rewrite Ox. repeat split. set_solver. }
  destruct (String.eqb (one_dim_orientation cfg) "y") eqn:Oy.
  { apply String.eqb_eq in Oy.
    destruct (dim shape 1) as [d|]; simpl.
    - exists d. split; [reflexivity |]. right. left. auto.
    - right. rewrite Oy. repeat split. set_solver. }
  destruct (String.eqb (one_dim_orientation cfg) "z") eqn:Oz.
  { apply String.eqb_eq in Oz.
    destruct (dim shape 1) as [d|]; simpl.
    - exists d. split; [reflexivity |]. right. right. auto.
    - right. rewrite Oz. repeat split. set_solver. }
  left. split; [reflexivity |].
  apply String.eqb_neq in Ox. apply String.eqb_neq in Oy.
  apply String.eqb_neq in Oz.
  rewrite !not_elem_of_cons. repeat split; [assumption ..|]. apply not_elem_of_nil.
Qed.

Lemma rank2_size_witness :
  exists d, dim [None; Some 128] 1 = Some d /\
    resolve_size default_config (Dense 128)
    = Ok (inject_Z 20, inject_Z 20,
          clamp (inject_Z d * (1 # 10)) (inject_Z 20) 400).
Proof.
  pose proof (rank2_size default_config (Dense 128) [None; Some 128]
                eq_refl eq_refl) as Hsize.
  cbv zeta in Hsize.
  destruct (resolve_size default_config (Dense 128)) as [[[x y] z]|e] eqn:E;
    [| vm_compute in E; discriminate].
  destruct Hsize as (d & Hd & [(Ho & _) | [(Ho & _) | (_ & Hx & Hy & Hz)]]);
    [discriminate Ho | discriminate Ho |].
  exists d. split; [exact Hd |]. rewrite Hx, Hy, Hz. reflexivity.
Defined.

(** C3, as the claim has it, fails: the default [Dense(10)] has the size
    (20, 20, 20), none of the three off its minimum, where the claim wants
    exactly one. *)
Lemma rank2_none_off_minimum :
  select_shape (output_shape (Dense 10)) = Ok [None; Some 10]
  /\ ~ (exists size, resolve_size default_config (Dense 10) = Ok size
                     /\ off_minimum default_config size = 1%nat).
Proof.
  split; [reflexivity |].
  intros (size & Hsize & Hoff).
  vm_compute in Hsize. injection Hsize as <-.
  vm_compute in Hoff. discriminate.
Qed.

(** ** A model without a visible layer *)

Lemma not_visible_cases (cfg : config) (index : Z) (l : layer) :
  visible cfg index l = false ->
  ignored cfg index l = true \/ is_spacing l = true.
Proof.
  unfold visible, delimiter, ignored. intros Hv.
  apply negb_false_iff in Hv.
  destruct (bool_decide (ltype l ∈ type_ignore cfg)); simpl in *; [auto |].
  destruct (is_spacing l); simpl in *; [auto |].
  left. exact Hv.
Qed.

Lemma visible_cases (cfg : config) (index : Z) (l : layer) :
  visible cfg index l = true ->
  ignored cfg index l = false /\ is_spacing l = false.
Proof.
  unfold visible, delimiter, ignored. intros Hv.
  apply negb_true_iff in Hv.
  destruct (bool_decide (ltype l ∈ type_ignore cfg)); simpl in *; [discriminate |].
  destruct (is_spacing l); simpl in *; [discriminate |].
  auto.
Qed.



(** Creating and flushing an image, by its size. *)
Lemma Image_new_spec (w h : Z) (bg : color) :
  (w < 0 \/ h < 0 -> Image_new w h bg = Err ValueError_image_size)
  /\ (0 <= w -> 0 <= h -> Image_new w h bg = Ok (blank w h bg)).
Proof.
  unfold Image_new. split.
  - intros Hneg. replace ((w <? 0) || (h <? 0)) with true; [reflexivity |].
    symmetry. apply orb_true_iff. lia.
  - intros Hw Hh. replace ((w <? 0) || (h <? 0)) with false; [reflexivity |].
    symmetry. apply orb_false_iff. lia.
Qed.

Lemma flush_spec (img : Image) :
  (width img = 0 \/ height img = 0 -> flush img = Err Error_flush)
  /\ (width img <> 0 -> height img <> 0 -> flush img = Ok tt).
Proof.
  unfold flush. split.
  - intros Hzero.
    replace ((width img =? 0) || (height img =? 0)) with true; [reflexivity |].
    symmetry. apply orb_true_iff. lia.
  - intros Hw Hh.
    replace ((width img =? 0) || (height img =? 0)) with false; [reflexivity |].
    symmetry. apply orb_false_iff. lia.
Qed.




(** ** The layout loop *)

Section LayoutFacts.
Context `{Utils}.
Variable cfg : config.

(** The loop on a model cut in two. *)
Lemma layout_loop_app (l1 l2 : list layer) :
  forall (st : layout_state) (index : Z),
    layout_loop cfg st index (l1 ++ l2)
    = let* s := layout_loop cfg st index l1 in
      layout_loop cfg s (index + Z.of_nat (length l1)) l2.
Proof.
  induction l1 as [|l rest IH]; intros st index; simpl.
  - f_equal. lia.
  - destruct (layout_step cfg st index l) as [s|e]; simpl; [| reflexivity].
    rewrite IH. replace (index + 1 + Z.of_nat (length rest))
      with (index + Z.of_nat (S (length rest))) by lia. reflexivity.
Qed.

(** A property of the state and of the visible layers met so far that
    every step keeps is kept by the loop. *)
Lemma layout_loop_invariant (R : list layer -> layout_state -> Prop) :
  (forall seen st index l st',
      R seen st -> layout_step cfg st index l = Ok st' ->
      R (seen ++ (if visible cfg index l then [l] else [])) st') ->
  forall layers seen st index st',
    R seen st -> layout_loop cfg st index layers = Ok st' ->
    R (seen ++ map snd (filter (fun p => visible cfg (fst p) (snd p) = true)
                               (enumerate_from index layers))) st'.
Proof.
  intros Hstep. induction layers as [|l rest IH]; intros seen st index st' HR Hrun;
    simpl in *.
  - injection Hrun as <-. rewrite app_nil_r. exact HR.
  - bind_inv Hrun. rename a into s.
    specialize (Hstep _ _ _ _ _ HR Ha).
    specialize (IH _ _ _ _ Hstep Hrun).
    rewrite filter_cons. simpl.
    destruct (visible cfg index l) eqn:Hv.
    + rewrite decide_True by reflexivity. simpl.
      rewrite <- app_assoc in IH. exact IH.
    + rewrite decide_False by discriminate.
      rewrite app_nil_r in IH. exact IH.
Qed.

End LayoutFacts.

(** ** Vertical centring *)

Section Centring.
Context `{Utils}.
Variable cfg : config.

Lemma layout_uncentred (model : list layer) (st : layout_state) :
  layout cfg model = Ok st -> Forall2 uncentred (boxes st) (layer_y st).
Proof.
  intros Hrun.
  apply (layout_loop_invariant cfg
           (fun _ s => Forall2 uncentred (boxes s) (layer_y s)))
    with (seen := []) (layers := model) (st := layout_init cfg) (index := 0);
    [| constructor | exact Hrun].
  clear. intros _ st index l st' Hinv Hstep.
  unfold layout_step in Hstep.
  destruct (ignored cfg index l); [injection Hstep as <-; exact Hinv |].
  destruct (is_spacing l); [injection Hstep as <-; exact Hinv |].
  bind_inv Hstep. destruct a as [[x y] z]. injection Hstep as <-.
  unfold place_box. destruct (get_color (wheel st) (ltype l)) as [c w]. simpl.
  apply Forall2_app; [exact Hinv |].
  constructor; [| constructor]. split; reflexivity.
Qed.

Lemma center_boxes_balanced (img : Image) (xoff : Q) (bs : list Box) (ys : list Q) :
  Forall2 uncentred bs ys ->
  exists bs', center_boxes img xoff bs ys = Ok bs'
    /\ length bs' = length bs
    /\ Forall (fun b => (room_above b == room_below img b)%Q) bs'.
Proof.
  induction 1 as [|b ly bs ys [Hy1 Hly] _ (bs' & Hrun & Hlen & Hall)]; simpl.
  - exists []. repeat split. constructor.
  - rewrite Hrun. simpl. eexists. split; [reflexivity |].
    split; [simpl; congruence |].
    constructor; [| exact Hall].
    unfold room_above, room_below, center_box. simpl.
    rewrite Hly, Hy1. field.
Qed.

(** What [layered_view] does once the layout has raised nothing: the
    centring pass succeeds; on a canvas of positive width and height the
    label pass and the legend decide the outcome, on any other canvas
    [Image.new] or [flush] raises. *)
Lemma view_after_layout (model : list layer) (st : layout_state) :
  0 <= draw_shapes cfg <= 3 ->
  layout cfg model = Ok st ->
  exists bs,
    centered cfg st = Ok (new_canvas cfg st, bs)
    /\ length bs = length (boxes st)
    /\ (canvas_drawable cfg st ->
        layered_view cfg model
        = let* labels := shape_labels cfg bs model in
          add_legend cfg
            (draw_on (draw_on (new_canvas cfg st) (draw_boxes cfg bs)) labels)
            (cmap st) (layer_types st))
    /\ (~ canvas_drawable cfg st ->
        layered_view cfg model = Err ValueError_image_size
        \/ layered_view cfg model = Err Error_flush).
Proof.
  intros Hmode Hrun.
  destruct (center_boxes_balanced (new_canvas cfg st) (x_off st) _ _
              (layout_uncentred _ _ Hrun)) as (bs & Hc & Hlen & _).
  exists bs. split; [unfold centered; rewrite Hc; reflexivity |].
  split; [exact Hlen |].
  unfold canvas_drawable, layered_view.
  rewrite (proj2 (check_draw_shapes_spec cfg)) by lia. cbn [bind].
  rewrite Hrun. cbn [bind].
  change (width (new_canvas cfg st)) with (Qceiling (img_width cfg st)).
  change (height (new_canvas cfg st))
    with (Qceiling (img_height st + inject_Z (padding_vertical cfg))).
  destruct (Image_new_spec (Qceiling (img_width cfg st))
              (Qceiling (img_height st + inject_Z (padding_vertical cfg)))
              (background_fill cfg)) as [Hneg Hnew].
  split.
  - intros [Hw Hh]. rewrite Hnew by lia. cbn [bind].
    change (blank (Qceiling (img_width cfg st))
              (Qceiling (img_height st + inject_Z (padding_vertical cfg)))
              (background_fill cfg)) with (new_canvas cfg st).
    rewrite Hc. cbn [bind].
    rewrite (proj2 (flush_spec _)) by (simpl; lia). reflexivity.
  - intros Hno.
    destruct (Z_lt_dec (Qceiling (img_width cfg st)) 0) as [Hw|Hw];
      [left; rewrite Hneg by lia; reflexivity |].
    destruct (Z_lt_dec (Qceiling (img_height st
                                  + inject_Z (padding_vertical cfg))) 0)
      as [Hh|Hh]; [left; rewrite Hneg by lia; reflexivity |].
    right. rewrite Hnew by lia. cbn [bind].
    change (blank (Qceiling (img_width cfg st))
              (Qceiling (img_height st + inject_Z (padding_vertical cfg)))
              (background_fill cfg)) with (new_canvas cfg st).
    rewrite Hc. cbn [bind].
    rewrite (proj1 (flush_spec _)) by (simpl; lia). reflexivity.
Qed.

Lemma minimum_ext {A : Type} (f g : A -> Q) (l : list A) :
  Forall (fun a => (f a == g a)%Q) l ->
  option_Qeq (minimum (map f l)) (minimum (map g l)).
Proof.
  induction 1 as [|a l Ha _ IH]; simpl; [exact I |].
  destruct (minimum (map f l)) as [p|], (minimum (map g l)) as [q|];
    simpl in *; try contradiction.
  - apply Q.min_compat; assumption.
  - exact Ha.
Qed.

(** C2, as the code has it.  After the layout and the centring pass every
    box has as much room above it, [y1 - de] (down to the top of its
    extruded face), as below it, [img.height - y2]: each box is centred
    in the canvas on its own.  So the least room above equals the least
    room below. *)
Theorem boxes_centred (model : list layer) (st : layout_state) :
  layout cfg model = Ok st ->
  exists img bs, centered cfg st = Ok (img, bs)
    /\ length bs = length (boxes st)
    /\ Forall (fun b => (y1 b - de b == inject_Z (height img) - y2 b)%Q) bs
    /\ option_Qeq (minimum (map room_above bs))
                  (minimum (map (room_below img) bs)).
Proof.
  intros Hrun. apply layout_uncentred in Hrun.
  destruct (center_boxes_balanced (new_canvas cfg st) (x_off st) _ _ Hrun)
    as (bs & Hc & Hlen & Hall).
  exists (new_canvas cfg st), bs. unfold centered. rewrite Hc. simpl.
  repeat split; [exact Hlen | exact Hall |].
  apply minimum_ext, Hall.
Qed.

End Centring.

Lemma boxes_centred_witness :
  exists img bs,
    (let* st := layout default_config [Conv2D 28 28 3; Dense 128; Dense 10] in
     centered default_config st) = Ok (img, bs)
    /\ length bs = 3%nat
    /\ Forall (fun b => (y1 b - de b == inject_Z (height img) - y2 b)%Q) bs.
Proof.
  destruct (layout default_config [Conv2D 28 28 3; Dense 128; Dense 10])
    as [st|e] eqn:Hrun; [| vm_compute in Hrun; discriminate].
  destruct (boxes_centred default_config _ st Hrun)
    as (img & bs & Hc & Hlen & Hall & _).
  exists img, bs. simpl. split; [exact Hc |]. split; [| exact Hall].
  rewrite Hlen. vm_compute in Hrun. injection Hrun as <-. reflexivity.
Defined.

(** C2, as the claim has it, fails: for the single box of a default
    [Dense(10)] the room above is 31/6, and [img_height - (y2 + de)] is
    -3/2 with the height of the canvas (37) and -11/6 with the height
    before [ceil] (110/3): more than one pixel apart either way. *)
Lemma centred_not_balanced_as_claimed :
  exists st img bs,
    layout default_config [Dense 10] = Ok st
    /\ centered default_config st = Ok (img, bs)
    /\ ~ balanced_as_claimed (inject_Z (height img)) bs
    /\ ~ balanced_as_claimed
           (img_height st + inject_Z (padding_vertical default_config)) bs.
Proof.
  do 3 eexists. split; [vm_compute; reflexivity |].
  split; [vm_compute; reflexivity |].
  split; intros Hb; vm_compute in Hb; apply Hb; reflexivity.
Qed.

(** ** Boxes and cursor along the traversal *)

Section Traversal.
Context `{Utils}.
Variable cfg : config.

Lemma visible_true_iff (index : Z) (l : layer) :
  visible cfg index l = true <-> ignored cfg index l = false /\ is_spacing l = false.
Proof.
  split; [apply visible_cases |]. intros [Hi Hs].
  unfold visible, delimiter, ignored in *. apply orb_false_iff in Hi as [-> ->].
  rewrite Hs. reflexivity.
Qed.

(** What one turn of the loop does, case by case. *)
Lemma layout_step_cases (st st' : layout_state) (index : Z) (l : layer) :
  layout_step cfg st index l = Ok st' ->
  (ignored cfg index l = true /\ st' = st)
  \/ (ignored cfg index l = false /\ is_spacing l = true
      /\ boxes st' = boxes st
      /\ current_z st' = (current_z st + inject_Z (layer_spacing l))%Q)
  \/ (visible cfg index l = true
      /\ exists x y z b,
           resolve_size cfg l = Ok (x, y, z)
           /\ box_of_layer cfg l b
           /\ boxes st' = boxes st ++ [b]
           /\ current_z st' = (current_z st + (z + inject_Z (spacing cfg)))%Q).
Proof.
  intros Hstep. unfold layout_step in Hstep.
  destruct (ignored cfg index l) eqn:Hi.
  { left. injection Hstep as <-. auto. }
  destruct (is_spacing l) eqn:Hs.
  { right. left. injection Hstep as <-. auto. }
  right. right. split; [apply visible_true_iff; auto |].
  bind_inv Hstep. destruct a as [[x y] z]. injection Hstep as <-.
  unfold place_box. destruct (get_color (wheel st) (ltype l)) as [c w]. simpl.
  exists x, y, z. eexists. split; [exact Ha |]. split; [| split; reflexivity].
  exists x, y, z. split; [exact Ha |]. simpl.
  split; [ring | split; [ring | reflexivity]].
Qed.

Lemma clamp_lower (raw lo : Q) (hi : Z) :
  (0 <= lo)%Q -> 0 <= hi -> (0 <= clamp raw lo hi)%Q.
Proof.
  intros Hlo Hhi. unfold clamp. apply Q.min_glb.
  - apply Qle_trans with lo; [exact Hlo | apply Q.le_max_r].
  - change 0%Q with (inject_Z 0). rewrite <- Zle_Qle. exact Hhi.
Qed.

(** The depth of a box is not negative when [min_z] and [max_z] are not. *)
Lemma resolve_size_depth (l : layer) (x y z : Q) :
  0 <= min_z cfg -> 0 <= max_z cfg ->
  resolve_size cfg l = Ok (x, y, z) -> (0 <= z)%Q.
Proof.
  intros Hmin Hmax Hsize.
  assert (Hlo : (0 <= inject_Z (min_z cfg))%Q)
    by (change 0%Q with (inject_Z 0); rewrite <- Zle_Qle; exact Hmin).
  unfold resolve_size in Hsize. bind_inv Hsize. rename a into shape.
  destruct (4 <=? length shape)%nat.
  { do 3 bind_inv Hsize. injection Hsize as _ _ <-. apply clamp_lower; assumption. }
  destruct (length shape =? 3)%nat.
  { do 2 bind_inv Hsize. discriminate Hsize. }
  destruct (length shape =? 2)%nat; [| discriminate].
  destruct (String.eqb (one_dim_orientation cfg) "x").
  { bind_inv Hsize. injection Hsize as _ _ <-. exact Hlo. }
  destruct (String.eqb (one_dim_orientation cfg) "y").
  { bind_inv Hsize. injection Hsize as _ _ <-. exact Hlo. }
  destruct (String.eqb (one_dim_orientation cfg) "z"); [| discriminate].
  bind_inv Hsize. injection Hsize as _ _ <-. apply clamp_lower; assumption.
Qed.

Lemma layout_boxes_of_layers (model : list layer) (st : layout_state) :
  layout cfg model = Ok st ->
  Forall2 (box_of_layer cfg) (visible_layers cfg model) (boxes st).
Proof.
  intros Hrun.
  apply (layout_loop_invariant cfg
           (fun seen s => Forall2 (box_of_layer cfg) seen (boxes s)))
    with (seen := []) (layers := model) (st := layout_init cfg) (index := 0);
    [| constructor | exact Hrun].
  clear. intros seen st index l st' Hinv Hstep.
  destruct (layout_step_cases _ _ _ _ Hstep)
    as [(Hi & ->) | [(Hi & Hs & Hb & _) | (Hv & x & y & z & b & _ & Hbox & Hb & _)]].
  - replace (visible cfg index l) with false; [rewrite app_nil_r; exact Hinv |].
    symmetry. apply not_true_is_false. intros Hv.
    apply visible_cases in Hv. destruct Hv. congruence.
  - replace (visible cfg index l) with false;
      [rewrite app_nil_r, Hb; exact Hinv |].
    symmetry. apply not_true_is_false. intros Hv.
    apply visible_cases in Hv. destruct Hv. congruence.
  - rewrite Hv, Hb. apply Forall2_app; [exact Hinv |].
    constructor; [exact Hbox | constructor].
Qed.

(** The run up to the layer at position [n], and one layer further. *)
Lemma layout_prefixes (model : list layer) (st : layout_state) (n : nat) (l : layer) :
  layout cfg model = Ok st ->
  model !! n = Some l ->
  exists s1 s2,
    layout cfg (take n model) = Ok s1
    /\ layout cfg (take (S n) model) = Ok s2
    /\ layout_step cfg s1 (Z.of_nat n) l = Ok s2.
Proof.
  intros Hrun Hl. unfold layout in *.
  assert (Hlen : length (take n model) = n).
  { apply length_take_le. apply lookup_lt_Some in Hl. lia. }
  rewrite <- (take_drop_middle model n l Hl) in Hrun.
  rewrite layout_loop_app in Hrun. bind_inv Hrun. rename a into s1.
  simpl in Hrun. bind_inv Hrun. rename a into s2.
  rewrite Hlen in Ha0. simpl in Ha0.
  exists s1, s2. split; [exact Ha |]. split; [| exact Ha0].
  rewrite (take_S_r model n l Hl), layout_loop_app, Ha. simpl.
  rewrite Hlen. simpl. rewrite Ha0. reflexivity.
Qed.

(** C6, as the code has it.  When the layout raises nothing, [N] visible
    layers give exactly [N] boxes, the k-th box having the size resolved
    for the k-th visible layer.  A layer that is not visible adds no box.
    A spacer that is not ignored moves the cursor by exactly its
    [spacing], a strict increase when that is positive; the cursor never
    moves back when [spacing], [min_z], [max_z] and the [spacing] of every
    spacer are not negative. *)
Theorem chain_of_boxes (model : list layer) (st : layout_state) :
  layout cfg model = Ok st ->
  length (boxes st) = length (visible_layers cfg model)
  /\ Forall2 (box_of_layer cfg) (visible_layers cfg model) (boxes st)
  /\ forall (n : nat) (l : layer),
       model !! n = Some l ->
       exists s1 s2,
         layout cfg (take n model) = Ok s1
         /\ layout cfg (take (S n) model) = Ok s2
         /\ (visible cfg (Z.of_nat n) l = false -> boxes s2 = boxes s1)
         /\ (visible cfg (Z.of_nat n) l = true ->
               exists b, boxes s2 = boxes s1 ++ [b])
         /\ (ignored cfg (Z.of_nat n) l = false -> is_spacing l = true ->
               (current_z s2 == current_z s1 + inject_Z (layer_spacing l))%Q
               /\ (0 < layer_spacing l -> (current_z s1 < current_z s2)%Q))
         /\ (advances_nonneg cfg model -> (current_z s1 <= current_z s2)%Q).
Proof.
  intros Hrun.
  pose proof (layout_boxes_of_layers _ _ Hrun) as Hboxes.
  split; [symmetry; eapply Forall2_length, Hboxes |].
  split; [exact Hboxes |].
  intros n l Hl.
  destruct (layout_prefixes _ _ _ _ Hrun Hl) as (s1 & s2 & H1 & H2 & Hstep).
  exists s1, s2. split; [exact H1 |]. split; [exact H2 |].
  destruct (layout_step_cases _ _ _ _ Hstep)
    as [(Hi & ->) | [(Hi & Hs & Hb & Hz) | (Hv & x & y & z & b & Hsize & _ & Hb & Hz)]].
  - split; [reflexivity |].
    split; [intros Hv; apply visible_cases in Hv; destruct Hv; congruence |].
    split; [intros Hi'; congruence |].
    intros _. apply Qle_refl.
  - split; [intros _; exact Hb |].
    split; [intros Hv; apply visible_cases in Hv; destruct Hv; congruence |].
    split.
    + intros _ _. rewrite Hz. split; [reflexivity |].
      intros Hpos. rewrite <- (Qplus_0_r (current_z s1)) at 1.
      apply Qplus_lt_r. change 0%Q with (inject_Z 0). rewrite <- Zlt_Qlt. exact Hpos.
    + intros (_ & _ & _ & Hsp). rewrite Hz.
      rewrite <- (Qplus_0_r (current_z s1)) at 1.
      apply Qplus_le_r. change 0%Q with (inject_Z 0). rewrite <- Zle_Qle.
      rewrite Forall_forall in Hsp. apply Hsp; [| exact Hs].
      eapply list_elem_of_lookup_2, Hl.
  - split; [intros Hv'; congruence |].
    split; [intros _; exists b; exact Hb |].
    split; [intros _ Hs; apply visible_cases in Hv; destruct Hv; congruence |].
    intros (Hsp & Hmin & Hmax & _). rewrite Hz.
    rewrite <- (Qplus_0_r (current_z s1)) at 1.
    apply Qplus_le_r.
    change 0%Q with (0 + 0)%Q. apply Qplus_le_compat.
    + eapply resolve_size_depth; eassumption.
    + change 0%Q with (inject_Z 0). rewrite <- Zle_Qle. exact Hsp.
Qed.

End Traversal.

Lemma chain_of_boxes_witness :
  exists st s1 s2,
    layout default_config [Conv2D 28 28 3; Spacing 3 50; Dense 10] = Ok st
    /\ length (boxes st) = 2%nat
    /\ layout default_config [Conv2D 28 28 3] = Ok s1
    /\ layout default_config [Conv2D 28 28 3; Spacing 3 50] = Ok s2
    /\ boxes s2 = boxes s1
    /\ (current_z s1 < current_z s2)%Q.
Proof.
  destruct (layout default_config [Conv2D 28 28 3; Spacing 3 50; Dense 10])
    as [st|e] eqn:Hrun; [| vm_compute in Hrun; discriminate].
  destruct (chain_of_boxes default_config _ st Hrun) as (Hlen & _ & Hsteps).
  destruct (Hsteps 1%nat (Spacing 3 50) eq_refl)
    as (s1 & s2 & H1 & H2 & Hinv & _ & Hsp & Hmono).
  exists st, s1, s2. split; [reflexivity |].
  split; [rewrite Hlen; reflexivity |].
  split; [exact H1 |]. split; [exact H2 |].
  split; [apply Hinv; reflexivity |].
  assert (Hnn : advances_nonneg default_config
                  [Conv2D 28 28 3; Spacing 3 50; Dense 10]).
  { unfold advances_nonneg. simpl. repeat split; try lia.
    repeat constructor; simpl; intros; lia. }
  pose proof (Hmono Hnn) as _.
  apply (Hsp eq_refl eq_refl). simpl. lia.
Defined.

(** C6, as the claim has it, fails on spacers: [SpacingDummyLayer(0)]
    leaves the cursor where it is, and [SpacingDummyLayer(-30)] moves it
    back. *)
Lemma spacer_without_advance :
  exists s1 s2 s3,
    layout default_config [Dense 10] = Ok s1
    /\ layout default_config [Dense 10; Spacing 10 0] = Ok s2
    /\ layout default_config [Dense 10; Spacing 10 0; Spacing 10 (-30)] = Ok s3
    /\ ~ (current_z s1 < current_z s2)%Q
    /\ ~ (current_z s2 <= current_z s3)%Q.
Proof.
  do 3 eexists. do 3 (split; [vm_compute; reflexivity |]).
  split; intros Hlt; vm_compute in Hlt; [discriminate Hlt | apply Hlt; reflexivity].
Qed.

(** ** One colour per layer type *)

Section Colours.
Context `{Utils}.
Variable cfg : config.

Lemma place_box_colored (st : layout_state) (l : layer) (types' : list string)
    (x y z : Q) (seen : list layer) :
  layer_types st ⊆ types' -> ltype l ∈ types' ->
  Forall2 (colored st) seen (boxes st) ->
  Forall2 (colored (place_box cfg st (ltype l) types' x y z)) (seen ++ [l])
          (boxes (place_box cfg st (ltype l) types' x y z)).
Proof.
  intros Hsub Hin Hinv. unfold place_box.
  destruct (get_color (wheel st) (ltype l)) as [c w]. simpl.
  apply Forall2_app.
  - eapply Forall2_impl; [exact Hinv |].
    intros l0 b0 [Hmap Htypes]. split; simpl; [| apply Hsub, Htypes].
    destruct (decide (ltype l = ltype l0)) as [Heq|Hne].
    + rewrite <- Heq, lookup_insert_eq.
      unfold get_fill, get_outline. rewrite <- Heq in Hmap. rewrite Hmap.
      reflexivity.
    + rewrite lookup_insert_ne by exact Hne. exact Hmap.
  - constructor; [| constructor]. split; simpl; [| exact Hin].
    apply lookup_insert_eq.
Qed.

Lemma layout_colored (model : list layer) (st : layout_state) :
  layout cfg model = Ok st ->
  Forall2 (colored st) (visible_layers cfg model) (boxes st).
Proof.
  intros Hrun.
  apply (layout_loop_invariant cfg (fun seen s => Forall2 (colored s) seen (boxes s)))
    with (seen := []) (layers := model) (st := layout_init cfg) (index := 0);
    [| constructor | exact Hrun].
  clear. intros seen st index l st' Hinv Hstep.
  unfold layout_step in Hstep.
  destruct (visible cfg index l) eqn:Hv.
  - destruct (visible_cases _ _ _ Hv) as [Hi Hs]. rewrite Hi, Hs in Hstep.
    bind_inv Hstep. destruct a as [[x y] z]. injection Hstep as <-.
    apply place_box_colored; [| | exact Hinv]; case_bool_decide.
    + reflexivity.
    + intros t Ht. apply elem_of_app. left. exact Ht.
    + assumption.
    + apply elem_of_app. right. apply list_elem_of_singleton. reflexivity.
  - rewrite app_nil_r.
    destruct (not_visible_cases _ _ _ Hv) as [Hc|Hc].
    + rewrite Hc in Hstep. injection Hstep as <-. exact Hinv.
    + destruct (ignored cfg index l); [injection Hstep as <-; exact Hinv |].
      rewrite Hc in Hstep. injection Hstep as <-. exact Hinv.
Qed.

(** The centring pass leaves the colours alone. *)
Lemma center_boxes_colors (img : Image) (xoff : Q) (bs : list Box) :
  forall (ys : list Q) (bs' : list Box),
    center_boxes img xoff bs ys = Ok bs' ->
    Forall2 (fun b b' => fill b' = fill b /\ outline b' = outline b) bs bs'.
Proof.
  induction bs as [|b bs IH]; intros ys bs' Hc; simpl in Hc.
  - injection Hc as <-. constructor.
  - destruct ys as [|ly ys]; [discriminate |].
    bind_inv Hc. injection Hc as <-.
    constructor; [split; reflexivity | eapply IH, Ha].
Qed.

(** C8.  In one call, two visible layers of the same type get the same
    fill and the same outline, on the boxes of the layout and on the boxes
    drawn after the centring pass; the type is one of those the legend
    shows, and its swatch in the legend has that fill and that outline. *)
Theorem one_color_per_type (model : list layer) (st : layout_state)
    (img : Image) (bs : list Box) :
  layout cfg model = Ok st ->
  centered cfg st = Ok (img, bs) ->
  forall (i j : nat) (li lj : layer) (bi bj : Box),
    visible_layers cfg model !! i = Some li ->
    visible_layers cfg model !! j = Some lj ->
    bs !! i = Some bi ->
    bs !! j = Some bj ->
    ltype li = ltype lj ->
    fill bi = fill bj /\ outline bi = outline bj
    /\ ltype li ∈ layer_types st
    /\ forall (cube_size lde : Z),
         fill (legend_box cfg (cmap st) cube_size lde (ltype li)) = fill bi
         /\ outline (legend_box cfg (cmap st) cube_size lde (ltype li)) = outline bi.
Proof.
  intros Hrun Hc i j li lj bi bj Hli Hlj Hbi Hbj Htype.
  pose proof (layout_colored _ _ Hrun) as Hcol.
  unfold centered in Hc. bind_inv Hc. injection Hc as <- <-.
  pose proof (center_boxes_colors _ _ _ _ _ Ha) as Hsame.
  destruct (Forall2_lookup_r _ _ _ _ _ Hsame Hbi) as (ui & Hui & Hfi & Hoi).
  destruct (Forall2_lookup_r _ _ _ _ _ Hsame Hbj) as (uj & Huj & Hfj & Hoj).
  destruct (Forall2_lookup_lr _ _ _ _ _ _ Hcol Hli Hui) as [Hmi Hti].
  destruct (Forall2_lookup_lr _ _ _ _ _ _ Hcol Hlj Huj) as [Hmj _].
  rewrite <- Htype, Hmi in Hmj. injection Hmj as Hf Ho.
  repeat split; try congruence.
  - unfold legend_box, get_fill. simpl. rewrite Hmi. simpl. congruence.
  - unfold legend_box, get_outline. simpl. rewrite Hmi. simpl. congruence.
Qed.

End Colours.

Lemma one_color_per_type_witness :
  exists st img b0 b1 b2,
    layout default_config [Dense 128; Conv2D 28 28 3; Dense 10] = Ok st
    /\ centered default_config st = Ok (img, [b0; b1; b2])
    /\ fill b0 = fill b2 /\ outline b0 = outline b2
    /\ fill (legend_box default_config (cmap st) 11 5 "Dense") = fill b0.
Proof.
  destruct (layout default_config [Dense 128; Conv2D 28 28 3; Dense 10])
    as [st|e] eqn:Hrun; [| vm_compute in Hrun; discriminate].
  destruct (centered default_config st) as [[img bs]|e] eqn:Hc;
    [| vm_compute in Hrun; injection Hrun as <-; vm_compute in Hc; discriminate].
  assert (Hbs : exists b0 b1 b2, bs = [b0; b1; b2]).
  { vm_compute in Hrun. injection Hrun as <-. vm_compute in Hc.
    injection Hc as _ <-. eauto. }
  destruct Hbs as (b0 & b1 & b2 & ->).
  exists st, img, b0, b1, b2.
  destruct (one_color_per_type default_config _ st img _ Hrun Hc
              0%nat 2%nat (Dense 128) (Dense 10) b0 b2
              eq_refl eq_refl eq_refl eq_refl eq_refl)
    as (Hf & Ho & _ & Hlegend).
  split; [reflexivity |]. split; [exact Hc |].
  split; [exact Hf |]. split; [exact Ho |].
  apply (Hlegend 11 5).
Defined.

(** ** Grouped shape labels *)

Section GroupedLabels.
Variable cfg : config.

Lemma segment_end_delimiter (bs : list Box) (i sli index i' sli' : Z) (l : layer)
    (text : option (Q * Q)) :
  delimiter cfg index l = true ->
  segment_end cfg bs i sli index l = Ok (i', sli', text) ->
  i' = i /\ sli' = i /\ exists p, text = Some p.
Proof.
  intros Hd Hseg. unfold segment_end in Hseg. rewrite Hd in Hseg.
  destruct (i - sli <=? 0); [discriminate |].
  destruct ((i - sli) mod 2 =? 1); bind_inv Hseg; injection Hseg as <- <- <-; eauto.
Qed.

Lemma segment_end_visible (bs : list Box) (i sli index : Z) (l : layer) :
  delimiter cfg index l = false ->
  segment_end cfg bs i sli index l = Ok (i + 1, sli, None).
Proof. intros Hd. unfold segment_end. rewrite Hd. reflexivity. Qed.

Lemma model_end_inside (bs : list Box) (n i sli index : Z) (text : option (Q * Q)) :
  index <> n - 1 -> model_end cfg bs n i sli index text = Ok text.
Proof.
  intros Hne. unfold model_end.
  replace (index =? n - 1) with false by (symmetry; lia). reflexivity.
Qed.

Lemma model_end_last (bs : list Box) (n i sli index : Z) (text text' : option (Q * Q)) :
  index = n - 1 ->
  model_end cfg bs n i sli index text = Ok text' ->
  0 < i - sli /\ exists p, text' = Some p.
Proof.
  intros Hlast Hend. unfold model_end in Hend.
  replace (index =? n - 1) with true in Hend by (symmetry; lia).
  destruct (i - sli <=? 0) eqn:Hle; [discriminate |].
  split; [lia |].
  destruct (i - sli mod 2 =? 1); bind_inv Hend; injection Hend as <-; eauto.
Qed.

Lemma draw_label_some (l : layer) (p : Q * Q) (ops : list draw_op) :
  draw_label cfg l (Some p) = Ok ops ->
  exists op, ops = [op] /\ label_of cfg op l.
Proof.
  destruct p as [x y]. simpl. intros Hd. bind_inv Hd. injection Hd as <-.
  eexists. split; [reflexivity |]. exists x, y, a. auto.
Qed.

Lemma last_layer_cons (l l' : layer) (rest : list layer) :
  last_layer (l :: l' :: rest) = last_layer (l' :: rest).
Proof. reflexivity. Qed.

(** The labels of the loop of line 238, one after the other: one for each
    layer without a box, then one at the last layer. *)
Lemma grouped_labels_sources (bs : list Box) (n : Z) (layers : list layer) :
  forall (i sli index : Z) (ops : list draw_op),
    index + Z.of_nat (length layers) = n ->
    grouped_labels cfg bs n i sli index layers = Ok ops ->
    Forall2 (label_of cfg) ops
            (delimiters_from cfg index layers ++ last_layer layers).
Proof.
  induction layers as [|l rest IH]; intros i sli index ops Hn Hrun; simpl in Hrun.
  - injection Hrun as <-. constructor.
  - bind_inv Hrun. destruct a as [[i' sli'] text].
    bind_inv Hrun. rename a into text'.
    bind_inv Hrun. rename a into drawn.
    bind_inv Hrun. rename a into more. injection Hrun as <-.
    unfold delimiters_from. simpl. rewrite filter_cons. simpl.
    destruct rest as [|l' rest'].
    + (* the last layer of the model *)
      simpl in Ha2. injection Ha2 as <-. rewrite app_nil_r.
      assert (Hlast : index = n - 1) by (simpl in Hn; lia).
      destruct (model_end_last _ _ _ _ _ _ _ Hlast Ha0) as (Hgap & p & ->).
      destruct (delimiter cfg index l) eqn:Hd.
      * destruct (segment_end_delimiter _ _ _ _ _ _ _ _ Hd Ha) as (-> & -> & _).
        lia.
      * rewrite decide_False by discriminate. simpl.
        destruct (draw_label_some _ _ _ Ha1) as (op & -> & Hop).
        constructor; [exact Hop | constructor].
    + (* a layer with others after it *)
      assert (Hin : index <> n - 1) by (simpl in Hn; lia).
      rewrite model_end_inside in Ha0 by exact Hin. injection Ha0 as <-.
      assert (Hn' : index + 1 + Z.of_nat (length (l' :: rest')) = n)
        by (simpl in *; lia).
      specialize (IH _ _ _ _ Hn' Ha2).
      rewrite last_layer_cons.
      destruct (delimiter cfg index l) eqn:Hd.
      * rewrite decide_True by reflexivity.
        destruct (segment_end_delimiter _ _ _ _ _ _ _ _ Hd Ha) as (_ & _ & p & ->).
        destruct (draw_label_some _ _ _ Ha1) as (op & -> & Hop).
        simpl. constructor; [exact Hop | exact IH].
      * rewrite decide_False by discriminate.
        rewrite segment_end_visible in Ha by exact Hd. injection Ha as <- <- <-.
        simpl in Ha1. injection Ha1 as <-. exact IH.
Qed.

(** C9.  With grouped labels, the texts drawn are, in this order, that of
    the output shape of each layer without a box (the spacer or ignored
    layer that ends a segment), whatever box the label is placed under,
    and then that of the output shape of the last layer of the model, for
    the segment the end of the model closes. *)
Theorem grouped_label_texts (bs : list Box) (model : list layer) (ops : list draw_op) :
  draw_shapes cfg = 3 ->
  shape_labels cfg bs model = Ok ops ->
  Forall2 (label_of cfg) ops (delimiters cfg model ++ last_layer model).
Proof.
  intros Hmode Hrun. unfold shape_labels in Hrun. rewrite Hmode in Hrun.
  simpl in Hrun. eapply grouped_labels_sources; [| exact Hrun]. lia.
Qed.

End GroupedLabels.

Lemma grouped_label_texts_witness :
  exists img bs ops,
    (let* st := layout default_config [Dense 10; Dense 20; Spacing 20 50; Dense 30] in
     centered default_config st) = Ok (img, bs)
    /\ shape_labels (with_draw_shapes default_config 3) bs
         [Dense 10; Dense 20; Spacing 20 50; Dense 30] = Ok ops
    /\ length ops = 2%nat
    /\ Forall2 (label_of (with_draw_shapes default_config 3)) ops
               [Spacing 20 50; Dense 30].
Proof.
  destruct (let* st := layout default_config
                         [Dense 10; Dense 20; Spacing 20 50; Dense 30] in
            centered default_config st) as [[img bs]|e] eqn:Hc;
    [| vm_compute in Hc; discriminate].
  destruct (shape_labels (with_draw_shapes default_config 3) bs
              [Dense 10; Dense 20; Spacing 20 50; Dense 30]) as [ops|e] eqn:Hl;
    [| vm_compute in Hc; injection Hc as _ <-; vm_compute in Hl; discriminate].
  exists img, bs, ops. split; [reflexivity |]. split; [exact Hl |].
  pose proof (grouped_label_texts (with_draw_shapes default_config 3) bs
                [Dense 10; Dense 20; Spacing 20 50; Dense 30] ops eq_refl Hl)
    as Hsrc.
  split; [| exact Hsrc].
  apply Forall2_length in Hsrc. exact Hsrc.
Defined.

(** ** A segment without a box *)

Lemma bind_fails_l {A B : Type} (m : result A) (k : A -> result B) :
  is_ok m = false -> is_ok (bind m k) = false.
Proof. destruct m; simpl; [discriminate | reflexivity]. Qed.

Lemma bind_fails_r {A B : Type} (m : result A) (k : A -> result B) :
  (forall a, is_ok (k a) = false) -> is_ok (bind m k) = false.
Proof. intros Hk. destruct m; simpl; [apply Hk | reflexivity]. Qed.

Lemma is_ok_false {A : Type} (m : result A) :
  is_ok m = false -> exists e, m = Err e.
Proof. destruct m; simpl; [discriminate | eauto]. Qed.

Lemma py_index_in_range {A : Type} (l : list A) (k : Z) :
  0 <= k < Z.of_nat (length l) -> exists a, py_index l k = Ok a.
Proof.
  intros Hk. unfold py_index.
  replace (k <? 0) with false by (symmetry; lia).
  replace ((k <? 0) || (Z.of_nat (length l) <=? k)) with false
    by (symmetry; apply orb_false_iff; split; lia).
  destruct (lookup_lt_is_Some_2 l (Z.to_nat k)) as [a Ha]; [lia |].
  rewrite Ha. eauto.
Qed.

Lemma ceil_half_spec (d : Z) : ceil_half d = - ((- d) / 2).
Proof.
  unfold ceil_half, Qceiling, Qfloor. simpl.
  rewrite Z.mul_1_r. reflexivity.
Qed.

Lemma ceil_half_bounds (d : Z) : 0 < d -> 0 < ceil_half d <= d.
Proof.
  intros Hd. rewrite ceil_half_spec.
  pose proof (Z.div_mod (- d) 2 ltac:(lia)) as Hdm.
  pose proof (Z.mod_pos_bound (- d) 2 ltac:(lia)) as Hm.
  lia.
Qed.

Section EmptySegment.
Context `{Utils}.
Variable cfg : config.

Lemma segment_end_error (bs : list Box) (i sli index : Z) (l : layer) (e : error) :
  -1 <= sli -> i < Z.of_nat (length bs) ->
  segment_end cfg bs i sli index l = Err e ->
  e = RuntimeError_spacing_layer.
Proof.
  intros Hsli Hi Hseg. unfold segment_end in Hseg.
  destruct (delimiter cfg index l); [| discriminate].
  destruct (i - sli <=? 0) eqn:Hgap; [congruence |].
  pose proof (ceil_half_bounds (i - sli) ltac:(lia)) as Hc.
  destruct ((i - sli) mod 2 =? 1) eqn:Hodd.
  - destruct (py_index_in_range bs (sli + ceil_half (i - sli)) ltac:(lia))
      as [b Hb].
    rewrite Hb in Hseg. discriminate.
  - assert (Hhalf : 0 < (i - sli) / 2 <= i - sli).
    { pose proof (Z.div_mod (i - sli) 2 ltac:(lia)) as Hdm.
      pose proof (Z.mod_pos_bound (i - sli) 2 ltac:(lia)) as Hm.
      lia. }
    destruct (py_index_in_range bs (sli + (i - sli) / 2) ltac:(lia)) as [b Hb].
    rewrite Hb in Hseg. discriminate.
Qed.

Lemma model_end_error (bs : list Box) (n i sli index : Z) (text : option (Q * Q))
    (e : error) :
  -1 <= sli -> i < Z.of_nat (length bs) ->
  model_end cfg bs n i sli index text = Err e ->
  e = RuntimeError_spacing_layer.
Proof.
  intros Hsli Hi Hend. unfold model_end in Hend.
  destruct (index =? n - 1); [| discriminate].
  destruct (i - sli <=? 0) eqn:Hgap; [congruence |].
  destruct (py_index_in_range bs i ltac:(lia)) as [b Hb].
  rewrite Hb in Hend. destruct (i - sli mod 2 =? 1); discriminate.
Qed.

(** When the boxes are those of the visible layers and every text can be
    written, the only exception of the loop of line 238 is that of lines
    245 and 269. *)
Lemma grouped_labels_error (bs : list Box) (n : Z) (layers : list layer) :
  forall (i sli index : Z) (e : error),
    -1 <= sli <= i ->
    i + 1 + Z.of_nat (length (filter (fun p => visible cfg (fst p) (snd p) = true)
                                     (enumerate_from index layers)))
      <= Z.of_nat (length bs) ->
    Forall (fun l => is_ok (shape_text (output_shape l)) = true) layers ->
    grouped_labels cfg bs n i sli index layers = Err e ->
    e = RuntimeError_spacing_layer.
Proof.
  induction layers as [|l rest IH]; intros i sli index e Hinv Hlen Htxt Hrun;
    simpl in Hrun; [discriminate |].
  apply Forall_cons in Htxt as [Hl Hrest].
  simpl in Hlen. rewrite filter_cons in Hlen.
  apply bind_Err in Hrun as [Hseg | ([[i' sli'] text] & Hseg & Hrun)].
  { destruct (decide _) in Hlen; simpl in Hlen;
      (eapply segment_end_error; [| | exact Hseg]; lia). }
  assert (Hstate : -1 <= sli' <= i'
                   /\ i' + 1 + Z.of_nat (length (filter
                        (fun p => visible cfg (fst p) (snd p) = true)
                        (enumerate_from (index + 1) rest)))
                      <= Z.of_nat (length bs)).
  { destruct (delimiter cfg index l) eqn:Hd.
    - destruct (segment_end_delimiter _ _ _ _ _ _ _ _ _ Hd Hseg) as (-> & -> & _).
      rewrite decide_False in Hlen
        by (simpl; unfold visible; rewrite Hd; discriminate).
      lia.
    - rewrite segment_end_visible in Hseg by exact Hd.
      injection Hseg as <- <- <-.
      rewrite decide_True in Hlen
        by (simpl; unfold visible; rewrite Hd; reflexivity).
      simpl in Hlen. lia. }
  destruct Hstate as [Hinv' Hlen'].
  apply bind_Err in Hrun as [Hend | (text' & Hend & Hrun)].
  { eapply model_end_error; [| | exact Hend]; lia. }
  apply bind_Err in Hrun as [Hdraw | (drawn & Hdraw & Hrun)].
  { destruct text' as [[x y]|]; simpl in Hdraw; [| discriminate].
    destruct (shape_text (output_shape l)); simpl in *; discriminate. }
  apply bind_Err in Hrun as [Hmore | (more & _ & Hrun)]; [| discriminate].
  eapply IH; [exact Hinv' | exact Hlen' | exact Hrest | exact Hmore].
Qed.

(** Two layers without a box, one right after the other, always make the
    loop of line 238 raise. *)
Lemma grouped_labels_adjacent (bs : list Box) (n : Z) (k : nat) :
  forall (layers : list layer) (i sli index : Z) (la lb : layer),
    layers !! k = Some la -> layers !! S k = Some lb ->
    delimiter cfg (index + Z.of_nat k) la = true ->
    delimiter cfg (index + Z.of_nat k + 1) lb = true ->
    is_ok (grouped_labels cfg bs n i sli index layers) = false.
Proof.
  induction k as [|k IH]; intros layers i sli index la lb Ha Hb Hda Hdb.
  - destruct layers as [|l0 [|l1 rest]]; try discriminate.
    injection Ha as ->. injection Hb as ->.
    rewrite Z.add_0_r in Hda, Hdb. simpl.
    destruct (segment_end cfg bs i sli index la) as [[[i' sli'] text]|e] eqn:Hseg;
      simpl; [| reflexivity].
    destruct (segment_end_delimiter _ _ _ _ _ _ _ _ _ Hda Hseg) as (-> & -> & _).
    do 2 (apply bind_fails_r; intros ?).
    apply bind_fails_l. apply bind_fails_l.
    unfold segment_end. rewrite Hdb.
    replace (i - i <=? 0) with true by (symmetry; lia). reflexivity.
  - destruct layers as [|l0 rest]; [discriminate |]. simpl in Ha, Hb. simpl.
    apply bind_fails_r. intros [[i' sli'] text].
    do 2 (apply bind_fails_r; intros ?).
    apply bind_fails_l.
    apply (IH rest i' sli' (index + 1) la lb Ha Hb).
    + replace (index + 1 + Z.of_nat k) with (index + Z.of_nat (S k)) by lia.
      exact Hda.
    + replace (index + 1 + Z.of_nat k + 1) with (index + Z.of_nat (S k) + 1) by lia.
      exact Hdb.
Qed.

Lemma empty_segment_adjacent (model : list layer) :
  empty_segment cfg model ->
  exists (a : nat) (la lb : layer),
    model !! a = Some la /\ model !! S a = Some lb
    /\ delimiter cfg (Z.of_nat a) la = true
    /\ delimiter cfg (Z.of_nat a + 1) lb = true.
Proof.
  intros (a & b & la & lb & Hab & Ha & Hb & Hda & Hdb & Hbetween).
  destruct (decide (S a = b)) as [<-|Hne].
  - exists a, la, lb. repeat split; try assumption.
    replace (Z.of_nat a + 1) with (Z.of_nat (S a)) by lia. exact Hdb.
  - destruct (lookup_lt_is_Some_2 model (S a)) as [lk Hk].
    { apply lookup_lt_Some in Hb. lia. }
    exists a, la, lk. repeat split; try assumption.
    specialize (Hbetween (S a) lk ltac:(lia) Hk).
    unfold visible in Hbetween. apply negb_false_iff in Hbetween.
    replace (Z.of_nat a + 1) with (Z.of_nat (S a)) by lia. exact Hbetween.
Qed.

(** C5, as the code has it.  With grouped labels, a model with two layers
    without a box and no visible layer between them never gets an image:
    [layered_view] raises.  The exception is the [RuntimeError] of lines
    245 and 269 whenever the layout raised nothing, the canvas has a
    positive width and height, so that [Image.new] and [flush] accept it,
    and the text of every output shape can be written; otherwise it is
    the exception met first. *)
Theorem empty_segment_fails (model : list layer) :
  draw_shapes cfg = 3 ->
  empty_segment cfg model ->
  (exists e, layered_view cfg model = Err e)
  /\ (forall st,
        layout cfg model = Ok st ->
        canvas_drawable cfg st ->
        Forall (fun l => is_ok (shape_text (output_shape l)) = true) model ->
        layered_view cfg model = Err RuntimeError_spacing_layer).
Proof.
  intros Hmode Hempty.
  destruct (empty_segment_adjacent _ Hempty) as (a & la & lb & Ha & Hb & Hda & Hdb).
  assert (Hlabels : forall bs, exists e, shape_labels cfg bs model = Err e).
  { intros bs. apply is_ok_false. unfold shape_labels. rewrite Hmode. simpl.
    apply (grouped_labels_adjacent bs _ a model (-1) (-1) 0 la lb Ha Hb);
      [exact Hda | exact Hdb]. }
  split.
  - destruct (layout cfg model) as [st|e] eqn:Hrun.
    + destruct (view_after_layout cfg model st ltac:(lia) Hrun)
        as (bs & _ & _ & Hyes & Hno).
      destruct (decide (0 < width (new_canvas cfg st)
                        /\ 0 < height (new_canvas cfg st))) as [Hcan|Hcan].
      * rewrite (Hyes Hcan). destruct (Hlabels bs) as [e He]. rewrite He.
        simpl. eauto.
      * destruct (Hno Hcan) as [-> | ->]; eauto.
    + unfold layered_view.
      rewrite (proj2 (check_draw_shapes_spec cfg)) by lia. cbn [bind].
      rewrite Hrun. simpl. eauto.
  - intros st Hrun Hcan Htxt.
    pose proof (layout_boxes_of_layers cfg _ _ Hrun) as Hboxes.
    apply Forall2_length in Hboxes.
    destruct (view_after_layout cfg model st ltac:(lia) Hrun)
      as (bs & _ & Hlen & Hyes & _).
    rewrite (Hyes Hcan).
    destruct (Hlabels bs) as [e He]. rewrite He. simpl. f_equal.
    unfold shape_labels in He. rewrite Hmode in He. simpl in He.
    eapply grouped_labels_error; [| | exact Htxt | exact He]; [lia |].
    unfold visible_layers, enumerate in Hboxes. rewrite length_map in Hboxes.
    lia.
Qed.

End EmptySegment.

Lemma empty_segment_fails_witness :
  layered_view (with_draw_shapes default_config 3)
    [Dense 10; Spacing 10 50; Spacing 10 50; Dense 30]
  = Err RuntimeError_spacing_layer.
Proof.
  destruct (layout (with_draw_shapes default_config 3)
              [Dense 10; Spacing 10 50; Spacing 10 50; Dense 30])
    as [st|e] eqn:Hrun; [| vm_compute in Hrun; discriminate].
  assert (Hempty : empty_segment (with_draw_shapes default_config 3)
                     [Dense 10; Spacing 10 50; Spacing 10 50; Dense 30]).
  { exists 1%nat, 2%nat, (Spacing 10 50), (Spacing 10 50).
    repeat split; try reflexivity; [lia |]. intros k lk Hk _. lia. }
  apply (proj2 (empty_segment_fails (with_draw_shapes default_config 3)
                  [Dense 10; Spacing 10 50; Spacing 10 50; Dense 30]
                  eq_refl Hempty) st Hrun); [| repeat constructor].
  vm_compute in Hrun. injection Hrun as <-.
  unfold canvas_drawable. vm_compute. split; reflexivity.
Defined.

(** C5, as the claim has it, fails on the kind of the exception: with an
    orientation the layout does not know, the run with two spacers in a
    row stops in the layout, on the [ValueError] of line 120, before the
    labels are reached. *)
Lemma empty_segment_other_error :
  draw_shapes (with_orientation (with_draw_shapes default_config 3) "w") = 3
  /\ empty_segment (with_orientation (with_draw_shapes default_config 3) "w")
                   [Dense 10; Spacing 10 50; Spacing 10 50]
  /\ layered_view (with_orientation (with_draw_shapes default_config 3) "w")
                  [Dense 10; Spacing 10 50; Spacing 10 50]
     = Err ValueError_orientation
  /\ layered_view (with_orientation (with_draw_shapes default_config 3) "w")
                  [Dense 10; Spacing 10 50; Spacing 10 50]
     <> Err RuntimeError_spacing_layer.
Proof.
  split; [reflexivity |]. split.
  - exists 1%nat, 2%nat, (Spacing 10 50), (Spacing 10 50).
    repeat split; try reflexivity; [lia |]. intros k lk Hk _. lia.
  - split; [vm_compute; reflexivity |]. vm_compute. discriminate.
Qed.

(** ** The label of the segment the end of the model closes *)

Lemma py_index_last {A : Type} (l : list A) (a : A) :
  last l = Some a -> py_index l (Z.of_nat (length l) - 1) = Ok a.
Proof.
  intros Hlast. rewrite last_lookup in Hlast.
  assert (Hlen : (0 < length l)%nat).
  { apply lookup_lt_Some in Hlast. lia. }
  unfold py_index.
  replace (Z.of_nat (length l) - 1 <? 0) with false by (symmetry; lia).
  replace ((Z.of_nat (length l) - 1 <? 0)
           || (Z.of_nat (length l) <=? Z.of_nat (length l) - 1)) with false
    by (symmetry; apply orb_false_iff; split; lia).
  replace (Z.to_nat (Z.of_nat (length l) - 1)) with (pred (length l)) by lia.
  rewrite Hlast. reflexivity.
Qed.

Section FinalSegment.
Variable cfg : config.

Lemma grouped_labels_all_visible (bs : list Box) (n : Z) (last_box : Box)
    (l_last : layer) (txt : string) (layers : list layer) :
  last bs = Some last_box ->
  shape_text (output_shape l_last) = Ok txt ->
  forall (i index : Z),
    Forall (fun p => visible cfg (fst p) (snd p) = true)
           (enumerate_from index layers) ->
    last layers = Some l_last ->
    index + Z.of_nat (length layers) = n ->
    -1 <= i ->
    i + Z.of_nat (length layers) = Z.of_nat (length bs) - 1 ->
    grouped_labels cfg bs n i (-1) index layers
    = Ok [DrawText (fst (final_anchor cfg (length bs) last_box))
                   (snd (final_anchor cfg (length bs) last_box))
                   txt (font_color cfg)].
Proof.
  intros Hbox Htxt.
  induction layers as [|l rest IH]; intros i index Hvis Hlast Hn Hi Hlen;
    [discriminate |].
  simpl in Hvis. apply Forall_cons in Hvis as [Hl Hrest]. simpl in Hl.
  unfold visible in Hl. apply negb_true_iff in Hl.
  cbn [grouped_labels]. rewrite segment_end_visible by exact Hl. cbn [bind].
  destruct rest as [|l' rest'].
  - injection Hlast as ->. simpl in Hn, Hlen.
    unfold model_end.
    replace (index =? n - 1) with true by (symmetry; lia).
    replace (i + 1 - -1 <=? 0) with false by (symmetry; lia).
    replace (i + 1) with (Z.of_nat (length bs) - 1) by lia.
    rewrite (py_index_last _ _ Hbox).
    change (-1 mod 2) with 1. unfold final_anchor.
    replace (Z.of_nat (length bs) - 1 - 1 =? 1) with (Z.of_nat (length bs) =? 3)
      by (destruct (Z.eqb_spec (Z.of_nat (length bs)) 3); symmetry; lia).
    destruct (Z.of_nat (length bs) =? 3); simpl; rewrite Htxt; reflexivity.
  - rewrite model_end_inside by (simpl in Hn; lia). cbn [bind draw_label].
    rewrite (IH (i + 1) (index + 1) Hrest); [reflexivity | | | |].
    + rewrite last_cons_cons in Hlast. exact Hlast.
    + simpl in *. lia.
    + lia.
    + simpl in *. lia.
Qed.

(** A segment closed by a layer without a box, for comparison: its label
    goes under the box in the middle, [boxes[idx]], the upper middle for an
    odd number of boxes and the lower middle for an even one. *)
Lemma inner_segment_anchor (bs : list Box) (i sli index : Z) (l : layer) :
  delimiter cfg index l = true ->
  -1 <= sli < i ->
  i < Z.of_nat (length bs) ->
  let odd := (i - sli) mod 2 =? 1 in
  let idx := sli + (if odd then ceil_half (i - sli) else (i - sli) / 2) in
  sli < idx <= i
  /\ exists box,
       py_index bs idx = Ok box
       /\ segment_end cfg bs i sli index l
          = Ok (i, i, Some (if odd then below box
                            else below_shifted box (spacing cfg))).
Proof.
  intros Hd Hsli Hi odd idx.
  pose proof (ceil_half_bounds (i - sli) ltac:(lia)) as Hc.
  assert (Hhalf : odd = false -> 0 < (i - sli) / 2 <= i - sli).
  { unfold odd. intros Hodd.
    pose proof (Z.div_mod (i - sli) 2 ltac:(lia)) as Hdm.
    pose proof (Z.mod_pos_bound (i - sli) 2 ltac:(lia)) as Hm.
    lia. }
  assert (Hidx : sli < idx <= i).
  { unfold idx. destruct odd; [lia |]. specialize (Hhalf eq_refl). lia. }
  split; [exact Hidx |].
  destruct (py_index_in_range bs idx ltac:(lia)) as [box Hbox].
  exists box. split; [exact Hbox |].
  unfold segment_end. rewrite Hd.
  replace (i - sli <=? 0) with false by (symmetry; lia).
  fold odd. unfold idx in Hbox. destruct odd; rewrite Hbox; reflexivity.
Qed.

(** C1, on the segment the end of the model closes.  With grouped labels
    and a model of visible layers only, the one label is placed under the
    last box, not under the box in the middle: lines 273 and 278 read
    [boxes[i]] where lines 250 and 256 read [boxes[idx]].  Its text is
    moved right by [padding] unless the model has three layers (the test
    of line 271 is [idx2 - (idx1 % 2) == 1]). *)
Theorem final_segment_anchor (bs : list Box) (model : list layer) (last_box : Box)
    (l_last : layer) (txt : string) :
  draw_shapes cfg = 3 ->
  all_visible cfg model ->
  length bs = length model ->
  last model = Some l_last ->
  last bs = Some last_box ->
  shape_text (output_shape l_last) = Ok txt ->
  shape_labels cfg bs model
  = Ok [DrawText (fst (final_anchor cfg (length model) last_box))
                 (snd (final_anchor cfg (length model) last_box))
                 txt (font_color cfg)].
Proof.
  intros Hmode Hvis Hlen Hlast Hbox Htxt.
  unfold shape_labels. rewrite Hmode. simpl. rewrite <- Hlen.
  apply grouped_labels_all_visible with (l_last := l_last);
    try assumption; lia.
Qed.

End FinalSegment.

Lemma final_segment_anchor_witness :
  exists img b0 b1 b2 x y,
    (let* st := layout default_config [Dense 10; Dense 20; Dense 30] in
     centered default_config st) = Ok (img, [b0; b1; b2])
    /\ shape_labels (with_draw_shapes default_config 3) [b0; b1; b2]
         [Dense 10; Dense 20; Dense 30]
       = Ok [DrawText x y "30" (ColorName "black")]
    /\ (x, y) = below b2
    /\ ~ (x == fst (below b1))%Q.
Proof.
  destruct (let* st := layout default_config [Dense 10; Dense 20; Dense 30] in
            centered default_config st) as [[img bs]|e] eqn:Hc;
    [| vm_compute in Hc; discriminate].
  assert (Hbs : exists b0 b1 b2, bs = [b0; b1; b2]
                                 /\ ~ (fst (below b2) == fst (below b1))%Q).
  { vm_compute in Hc. injection Hc as _ <-. do 3 eexists.
    split; [reflexivity |]. intros Heq. vm_compute in Heq. discriminate. }
  destruct Hbs as (b0 & b1 & b2 & -> & Hne).
  exists img, b0, b1, b2, (fst (below b2)), (snd (below b2)).
  split; [reflexivity |]. split; [| split; [reflexivity | exact Hne]].
  apply (final_segment_anchor (with_draw_shapes default_config 3)
           [b0; b1; b2] [Dense 10; Dense 20; Dense 30] b2 (Dense 30) "30"
           eq_refl).
  - unfold all_visible. simpl. repeat constructor.
  - reflexivity.
  - reflexivity.
  - reflexivity.
  - reflexivity.
Defined.

(** * Further results *)

(** ** Sizes within their bounds *)

Lemma clamp_bounds (raw : Q) (lo hi : Z) :
  lo <= hi -> within lo hi (clamp raw (inject_Z lo) hi).
Proof.
  intros Hle. unfold within, clamp. split.
  - apply Q.min_glb; [apply Q.le_max_r | rewrite <- Zle_Qle; exact Hle].
  - apply Q.le_min_r.
Qed.

Lemma within_lower (lo hi : Z) : lo <= hi -> within lo hi (inject_Z lo).
Proof.
  intros Hle. split; [apply Qle_refl | rewrite <- Zle_Qle; exact Hle].
Qed.

(** X1.  Whenever a size is resolved, whatever the rank of the shape, each
    of [x] and [y] lies between [min_xy] and [max_xy] and [z] between
    [min_z] and [max_z], provided the minimum does not exceed the
    maximum. *)
Theorem resolve_size_within `{Utils} (cfg : config) (l : layer) (x y z : Q) :
  min_xy cfg <= max_xy cfg ->
  min_z cfg <= max_z cfg ->
  resolve_size cfg l = Ok (x, y, z) ->
  within (min_xy cfg) (max_xy cfg) x
  /\ within (min_xy cfg) (max_xy cfg) y
  /\ within (min_z cfg) (max_z cfg) z.
Proof.
  intros Hxy Hz Hsize.
  pose proof (within_lower _ _ Hxy) as Hlxy.
  pose proof (within_lower _ _ Hz) as Hlz.
  unfold resolve_size in Hsize. bind_inv Hsize. rename a into shape.
  destruct (4 <=? length shape)%nat.
  { do 3 bind_inv Hsize. injection Hsize as <- <- <-.
    repeat split; apply clamp_bounds; assumption. }
  destruct (length shape =? 3)%nat.
  { do 2 bind_inv Hsize. discriminate Hsize. }
  destruct (length shape =? 2)%nat; [| discriminate].
  destruct (String.eqb (one_dim_orientation cfg) "x").
  { bind_inv Hsize. injection Hsize as <- <- <-.
    split; [apply clamp_bounds; assumption | split; assumption]. }
  destruct (String.eqb (one_dim_orientation cfg) "y").
  { bind_inv Hsize. injection Hsize as <- <- <-.
    split; [assumption | split; [apply clamp_bounds |]; assumption]. }
  destruct (String.eqb (one_dim_orientation cfg) "z"); [| discriminate].
  bind_inv Hsize. injection Hsize as <- <- <-.
  split; [assumption | split; [assumption | apply clamp_bounds; assumption]].
Qed.

Lemma resolve_size_within_witness :
  exists x y z,
    resolve_size default_config (Conv2D 1000 2 64000) = Ok (x, y, z)
    /\ within 20 2000 x /\ within 20 2000 y /\ within 20 400 z.
Proof.
  destruct (resolve_size default_config (Conv2D 1000 2 64000))
    as [[[x y] z]|e] eqn:Hsize; [| vm_compute in Hsize; discriminate].
  exists x, y, z. split; [reflexivity |].
  apply (resolve_size_within default_config (Conv2D 1000 2 64000) x y z);
    [simpl; lia | simpl; lia | exact Hsize].
Defined.

(** ** When the layout raises *)

Section LayoutErrors.
Context `{Utils}.
Variable cfg : config.

Lemma layout_step_error (st : layout_state) (index : Z) (l : layer) (e : error) :
  layout_step cfg st index l = Err e <->
  visible cfg index l = true /\ resolve_size cfg l = Err e.
Proof.
  unfold layout_step. split.
  - intros Hstep.
    destruct (ignored cfg index l) eqn:Hi; [discriminate |].
    destruct (is_spacing l) eqn:Hs; [discriminate |].
    split; [apply visible_true_iff; auto |].
    destruct (resolve_size cfg l) as [[[x y] z]|e']; simpl in Hstep;
      [discriminate | congruence].
  - intros [Hv Hsize]. apply visible_cases in Hv as [-> ->].
    rewrite Hsize. reflexivity.
Qed.

Lemma layout_snoc (model : list layer) (l : layer) :
  layout cfg (model ++ [l])
  = let* s := layout cfg model in
    layout_step cfg s (Z.of_nat (length model)) l.
Proof.
  unfold layout. rewrite layout_loop_app.
  destruct (layout_loop cfg (layout_init cfg) 0 model) as [s|e]; simpl;
    [| reflexivity].
  rewrite Z.add_0_l.
  destruct (layout_step cfg s (Z.of_nat (length model)) l); reflexivity.
Qed.

(** The layout raises [e] exactly when some visible layer cannot be sized,
    with [e], after a run without exception up to that layer. *)
Lemma layout_error_iff (model : list layer) (e : error) :
  layout cfg model = Err e <->
  exists (n : nat) (l : layer) (s : layout_state),
    model !! n = Some l
    /\ layout cfg (take n model) = Ok s
    /\ visible cfg (Z.of_nat n) l = true
    /\ resolve_size cfg l = Err e.
Proof.
  split.
  - induction model as [|l model IH] using rev_ind; [discriminate |].
    rewrite layout_snoc. intros Hrun.
    apply bind_Err in Hrun as [Hrun | (s & Hs & Hstep)].
    + destruct (IH Hrun) as (n & l' & s & Hl & Hpre & Hv & Hsize).
      exists n, l', s.
      assert (Hn : (n < length model)%nat) by (eapply lookup_lt_Some, Hl).
      rewrite lookup_app_l by exact Hn.
      rewrite take_app_le by lia. auto.
    + apply layout_step_error in Hstep as [Hv Hsize].
      exists (length model), l, s.
      rewrite list_lookup_middle by reflexivity.
      rewrite take_app_length. auto.
  - intros (n & l & s & Hl & Hpre & Hv & Hsize).
    rewrite <- (take_drop_middle model n l Hl).
    unfold layout in *. rewrite layout_loop_app, Hpre.
    assert (Hlen : length (take n model) = n).
    { apply length_take_le. apply lookup_lt_Some in Hl. lia. }
    rewrite Hlen, Z.add_0_l. cbn [bind layout_loop].
    rewrite (proj2 (layout_step_error s (Z.of_nat n) l e)) by auto.
    reflexivity.
Qed.

(** X2.  The layout raises exactly when a visible layer cannot be sized
    after a run without exception up to it, and with the exception of
    that layer; for a valid [draw_shapes], [layered_view] then raises the
    same exception: no image is returned for a part of the model. *)
Theorem first_unsized_layer_aborts (model : list layer) (e : error) :
  0 <= draw_shapes cfg <= 3 ->
  (layout cfg model = Err e <->
   exists (n : nat) (l : layer) (s : layout_state),
     model !! n = Some l
     /\ layout cfg (take n model) = Ok s
     /\ visible cfg (Z.of_nat n) l = true
     /\ resolve_size cfg l = Err e)
  /\ (layout cfg model = Err e -> layered_view cfg model = Err e).
Proof.
  intros Hmode. split; [apply layout_error_iff |].
  intros Hrun. unfold layered_view.
  rewrite (proj2 (check_draw_shapes_spec cfg) Hmode). simpl.
  rewrite Hrun. reflexivity.
Qed.

End LayoutErrors.

Lemma first_unsized_layer_aborts_witness :
  layered_view default_config
    [Dense 10; Layer "Flatten" (ShapeTuple [None]) 0; Dense 30]
  = Err RuntimeError_tensor_shape.
Proof.
  destruct (first_unsized_layer_aborts default_config
              [Dense 10; Layer "Flatten" (ShapeTuple [None]) 0; Dense 30]
              RuntimeError_tensor_shape) as [Hiff Hview]; [simpl; lia |].
  apply Hview, Hiff.
  exists 1%nat, (Layer "Flatten" (ShapeTuple [None]) 0).
  destruct (layout default_config [Dense 10]) as [s|e] eqn:Hpre;
    [| vm_compute in Hpre; discriminate].
  exists s. split; [reflexivity |]. split; [exact Hpre |].
  split; reflexivity.
Defined.

(** ** A view without labels *)



Section NoLabels.
Context `{Utils}.
Variable cfg : config.




End NoLabels.

(** ** The boxes on the canvas *)



Lemma center_boxes_lookup (img : Image) (xoff : Q) (bs : list Box) :
  forall (ys : list Q) (bs' : list Box),
    center_boxes img xoff bs ys = Ok bs' ->
    length bs' = length bs
    /\ forall (k : nat) (c : Box),
         bs' !! k = Some c ->
         exists b ly, bs !! k = Some b /\ ys !! k = Some ly
                      /\ c = center_box img xoff b ly.
Proof.
  induction bs as [|b bs IH]; intros ys bs' Hc; simpl in Hc.
  - injection Hc as <-. split; [reflexivity |]. intros k c Hk. discriminate.
  - destruct ys as [|ly ys]; [discriminate |].
    bind_inv Hc. injection Hc as <-.
    destruct (IH _ _ Ha) as [Hlen Hlook].
    split; [simpl; congruence |].
    intros [|k] c Hk; simpl in *.
    + injection Hk as <-. eauto.
    + apply Hlook, Hk.
Qed.

Section Geometry.
Context `{Utils}.
Variable cfg : config.

(** Every box drawn is a box of the layout, moved by the centring pass. *)
Lemma centered_lookup (model : list layer) (st : layout_state) (img : Image)
    (bs : list Box) :
  layout cfg model = Ok st ->
  centered cfg st = Ok (img, bs) ->
  img = new_canvas cfg st
  /\ length bs = length (boxes st)
  /\ forall (k : nat) (c : Box),
       bs !! k = Some c ->
       exists b,
         boxes st !! k = Some b
         /\ y1 b = de b
         /\ layer_y st !! k = Some (y2 b - (y1 b - de b))%Q
         /\ c = center_box img (x_off st) b (y2 b - (y1 b - de b))%Q.
Proof.
  intros Hrun Hc. unfold centered in Hc. bind_inv Hc. injection Hc as <- <-.
  destruct (center_boxes_lookup _ _ _ _ _ Ha) as [Hlen Hlook].
  split; [reflexivity |]. split; [exact Hlen |].
  intros k c Hk. destruct (Hlook k c Hk) as (b & ly & Hb & Hly & ->).
  pose proof (layout_uncentred cfg _ _ Hrun) as Hun.
  destruct (Forall2_lookup_lr _ _ _ _ _ _ Hun Hb Hly) as [Hy1 ->].
  exists b. auto.
Qed.


End Geometry.

Ltac qlra :=
  unfold Qdiv in *;
  change (/ 2)%Q with (1 # 2)%Q in *;
  change (/ 3)%Q with (1 # 3)%Q in *;
  lra.

Section OnTheCanvas.
Context `{Utils}.
Variable cfg : config.

Lemma resolve_size_nonneg (l : layer) (x y z : Q) :
  bounds_nonneg cfg ->
  resolve_size cfg l = Ok (x, y, z) ->
  (0 <= x)%Q /\ (0 <= y)%Q /\ (0 <= z)%Q.
Proof.
  intros (Hmxy & HMxy & Hmz & HMz) Hsize.
  assert (Hlxy : (0 <= inject_Z (min_xy cfg))%Q)
    by (change 0%Q with (inject_Z 0); rewrite <- Zle_Qle; exact Hmxy).
  split; [| split; [| eapply resolve_size_depth; eassumption]].
  - unfold resolve_size in Hsize. bind_inv Hsize. rename a into shape.
    destruct (4 <=? length shape)%nat.
    { do 3 bind_inv Hsize. injection Hsize as <- _ _. apply clamp_lower; assumption. }
    destruct (length shape =? 3)%nat.
    { do 2 bind_inv Hsize. discriminate Hsize. }
    destruct (length shape =? 2)%nat; [| discriminate].
    destruct (String.eqb (one_dim_orientation cfg) "x").
    { bind_inv Hsize. injection Hsize as <- _ _. apply clamp_lower; assumption. }
    destruct (String.eqb (one_dim_orientation cfg) "y").
    { bind_inv Hsize. injection Hsize as <- _ _. exact Hlxy. }
    destruct (String.eqb (one_dim_orientation cfg) "z"); [| discriminate].
    bind_inv Hsize. injection Hsize as <- _ _. exact Hlxy.
  - unfold resolve_size in Hsize. bind_inv Hsize. rename a into shape.
    destruct (4 <=? length shape)%nat.
    { do 3 bind_inv Hsize. injection Hsize as _ <- _. apply clamp_lower; assumption. }
    destruct (length shape =? 3)%nat.
    { do 2 bind_inv Hsize. discriminate Hsize. }
    destruct (length shape =? 2)%nat; [| discriminate].
    destruct (String.eqb (one_dim_orientation cfg) "x").
    { bind_inv Hsize. injection Hsize as _ <- _. exact Hlxy. }
    destruct (String.eqb (one_dim_orientation cfg) "y").
    { bind_inv Hsize. injection Hsize as _ <- _. apply clamp_lower; assumption. }
    destruct (String.eqb (one_dim_orientation cfg) "z"); [| discriminate].
    bind_inv Hsize. injection Hsize as _ <- _. exact Hlxy.
Qed.

Lemma box_of_layer_well_formed (l : layer) (b : Box) :
  bounds_nonneg cfg -> box_of_layer cfg l b -> well_formed b.
Proof.
  intros Hnn (x & y & z & Hsize & Hx & Hy & Hde).
  destruct (resolve_size_nonneg _ _ _ _ Hnn Hsize) as (Hx0 & Hy0 & Hz0).
  unfold well_formed. rewrite Hde.
  split; [lra | split; [lra |]].
  destruct (draw_volume cfg); qlra.
Qed.

(** X4.  When none of [min_xy], [max_xy], [min_z] and [max_z] is negative,
    every box that is drawn has its corners in order, [x1 <= x2] and
    [y1 <= y2], and a depth [de] that is not negative. *)
Theorem boxes_well_formed (model : list layer) (st : layout_state) (img : Image)
    (bs : list Box) :
  bounds_nonneg cfg ->
  layout cfg model = Ok st ->
  centered cfg st = Ok (img, bs) ->
  Forall well_formed bs.
Proof.
  intros Hnn Hrun Hc.
  destruct (centered_lookup cfg _ _ _ _ Hrun Hc) as (_ & _ & Hlook).
  pose proof (layout_boxes_of_layers cfg _ _ Hrun) as Hboxes.
  apply Forall_lookup. intros k c Hk.
  destruct (Hlook k c Hk) as (b & Hb & _ & _ & ->).
  destruct (Forall2_lookup_r _ _ _ _ _ Hboxes Hb) as (l & _ & Hbox).
  destruct (box_of_layer_well_formed _ _ Hnn Hbox) as (Hx & Hy & Hde).
  unfold well_formed, center_box. simpl. repeat split; [lra | lra | exact Hde].
Qed.




End OnTheCanvas.

Ltac run_layout cfg model :=
  let st := fresh "st" in
  let img := fresh "img" in
  let bs := fresh "bs" in
  let Hrun := fresh "Hrun" in
  let Hc := fresh "Hc" in
  destruct (layout cfg model) as [st|?] eqn:Hrun;
    [| vm_compute in Hrun; discriminate];
  destruct (centered cfg st) as [[img bs]|?] eqn:Hc;
    [| vm_compute in Hrun; injection Hrun as <-; vm_compute in Hc; discriminate];
  exists st, img, bs; split; [reflexivity |]; split; [exact Hc |].

Lemma boxes_well_formed_witness :
  exists st img bs,
    layout default_config [Conv2D 28 28 3; Dense 128; Dense 10] = Ok st
    /\ centered default_config st = Ok (img, bs)
    /\ Forall well_formed bs.
Proof.
  run_layout default_config [Conv2D 28 28 3; Dense 128; Dense 10].
  apply (boxes_well_formed default_config
           [Conv2D 28 28 3; Dense 128; Dense 10] st img bs); [| exact Hrun | exact Hc].
  unfold bounds_nonneg. simpl. lia.
Defined.




(** ** Where the first box starts *)

Section FirstBox.
Context `{Utils}.
Variable cfg : config.

Lemma layout_loop_boxes_prefix (layers : list layer) :
  forall (st st' : layout_state) (index : Z),
    layout_loop cfg st index layers = Ok st' ->
    exists more, boxes st' = boxes st ++ more.
Proof.
  induction layers as [|l rest IH]; intros st st' index Hrun; simpl in Hrun.
  - injection Hrun as <-. exists []. rewrite app_nil_r. reflexivity.
  - bind_inv Hrun. rename a into s.
    destruct (IH _ _ _ Hrun) as [more Hmore]. rewrite Hmore.
    destruct (layout_step_cases cfg _ _ _ _ Ha)
      as [(_ & ->) | [(_ & _ & -> & _) | (_ & x & y & z & b & _ & _ & -> & _)]];
      [eauto | eauto |].
    exists (b :: more). rewrite <- app_assoc. reflexivity.
Qed.



End FirstBox.


(** ** When an image is returned *)

Section Returned.
Context `{Utils}.
Variable cfg : config.




End Returned.


(** ** What is drawn *)

Lemma boxes_drawn_app (l1 l2 : list draw_op) :
  boxes_drawn (l1 ++ l2) = boxes_drawn l1 ++ boxes_drawn l2.
Proof. apply omap_app. Qed.

Lemma lines_drawn_app (l1 l2 : list draw_op) :
  lines_drawn (l1 ++ l2) = (lines_drawn l1 + lines_drawn l2)%nat.
Proof. unfold lines_drawn. rewrite filter_app, length_app. reflexivity. Qed.

Lemma texts_not_boxes (l : list draw_op) :
  Forall (fun op => is_text op = true) l ->
  boxes_drawn l = [] /\ lines_drawn l = 0%nat.
Proof.
  induction 1 as [|op l Hop _ [IHb IHl]]; [split; reflexivity |].
  destruct op; try discriminate. split; [exact IHb | exact IHl].
Qed.

Section Drawn.
Variable cfg : config.

Lemma connect_drawn (lines : Box -> Box -> list draw_op) (k : nat)
    (last_box : option Box) (box : Box) :
  (forall a b, boxes_drawn (lines a b) = [] /\ lines_drawn (lines a b) = k) ->
  boxes_drawn (connect cfg lines last_box box) = []
  /\ lines_drawn (connect cfg lines last_box box)
     = match last_box with
       | Some _ => if draw_funnel cfg then k else 0%nat
       | None => 0%nat
       end.
Proof.
  intros Hlines. unfold connect.
  destruct last_box as [lb|]; [| split; reflexivity].
  destruct (draw_funnel cfg); [apply Hlines | split; reflexivity].
Qed.

Lemma draw_forward_drawn (bs : list Box) :
  forall last_box,
    boxes_drawn (draw_forward cfg last_box bs) = map (fun b => (b, false)) bs
    /\ lines_drawn (draw_forward cfg last_box bs)
       = if draw_funnel cfg then (4 * neighbours last_box (length bs))%nat
         else 0%nat.
Proof.
  induction bs as [|b bs IH]; intros last_box; simpl.
  - split; [reflexivity |]. destruct (draw_funnel cfg), last_box; reflexivity.
  - destruct (IH (Some b)) as [IHb IHl].
    destruct (connect_drawn funnel_lines 4 last_box b) as [Hb Hl];
      [intros; split; reflexivity |].
    rewrite boxes_drawn_app, lines_drawn_app, Hb, Hl.
    change (DrawBox b false :: draw_forward cfg (Some b) bs)
      with ([DrawBox b false] ++ draw_forward cfg (Some b) bs).
    rewrite boxes_drawn_app, lines_drawn_app, IHb, IHl.
    split; [reflexivity |].
    destruct (draw_funnel cfg), last_box; simpl; lia.
Qed.

Lemma draw_back_drawn (bs : list Box) :
  forall last_box,
    boxes_drawn (draw_back cfg last_box bs) = []
    /\ lines_drawn (draw_back cfg last_box bs)
       = if draw_funnel cfg then (2 * neighbours last_box (length bs))%nat
         else 0%nat.
Proof.
  induction bs as [|b bs IH]; intros last_box; simpl.
  - split; [reflexivity |]. destruct (draw_funnel cfg), last_box; reflexivity.
  - destruct (IH (Some b)) as [IHb IHl].
    destruct (connect_drawn back_lines 2 last_box b) as [Hb Hl];
      [intros; split; reflexivity |].
    rewrite boxes_drawn_app, lines_drawn_app, Hb, Hl, IHb, IHl.
    split; [reflexivity |].
    destruct (draw_funnel cfg), last_box; simpl; lia.
Qed.

Lemma draw_front_drawn (bs : list Box) :
  forall last_box,
    boxes_drawn (draw_front cfg last_box bs) = map (fun b => (b, true)) bs
    /\ lines_drawn (draw_front cfg last_box bs)
       = if draw_funnel cfg then (2 * neighbours last_box (length bs))%nat
         else 0%nat.
Proof.
  induction bs as [|b bs IH]; intros last_box; simpl.
  - split; [reflexivity |]. destruct (draw_funnel cfg), last_box; reflexivity.
  - destruct (IH (Some b)) as [IHb IHl].
    destruct (connect_drawn front_lines 2 last_box b) as [Hb Hl];
      [intros; split; reflexivity |].
    rewrite boxes_drawn_app, lines_drawn_app, Hb, Hl.
    change (DrawBox b true :: draw_front cfg (Some b) bs)
      with ([DrawBox b true] ++ draw_front cfg (Some b) bs).
    rewrite boxes_drawn_app, lines_drawn_app, IHb, IHl.
    split; [reflexivity |].
    destruct (draw_funnel cfg), last_box; simpl; lia.
Qed.

Lemma draw_boxes_drawn (bs : list Box) :
  boxes_drawn (draw_boxes cfg bs)
  = map (fun b => (b, draw_reversed cfg))
        (if draw_reversed cfg then rev bs else bs)
  /\ lines_drawn (draw_boxes cfg bs)
     = if draw_funnel cfg then (4 * pred (length bs))%nat else 0%nat.
Proof.
  unfold draw_boxes. destruct (draw_reversed cfg).
  - destruct (draw_back_drawn bs None) as [Hbb Hbl].
    destruct (draw_front_drawn (rev bs) None) as [Hfb Hfl].
    rewrite boxes_drawn_app, lines_drawn_app, Hbb, Hbl, Hfb, Hfl.
    split; [reflexivity |]. rewrite length_rev.
    destruct (draw_funnel cfg); simpl; lia.
  - apply (draw_forward_drawn bs None).
Qed.

(** The labels are texts, whatever the mode. *)
Lemma shape_labels_texts (bs : list Box) (model : list layer) (labels : list draw_op) :
  shape_labels cfg bs model = Ok labels ->
  Forall (fun op => is_text op = true) labels.
Proof.
  assert (Hgrouped : forall layers n i sli index labels,
             grouped_labels cfg bs n i sli index layers = Ok labels ->
             Forall (fun op => is_text op = true) labels).
  { induction layers as [|l rest IH]; intros n i sli index ops Hrun;
      simpl in Hrun.
    - injection Hrun as <-. constructor.
    - bind_inv Hrun. destruct a as [[i' sli'] text].
      do 3 bind_inv Hrun. injection Hrun as <-.
      apply Forall_app. split; [| eapply IH; eassumption].
      destruct a as [[x y]|]; simpl in Ha1.
      + bind_inv Ha1. injection Ha1 as <-. repeat constructor.
      + injection Ha1 as <-. constructor. }
  assert (Heach : forall layers i index labels,
             box_labels cfg bs i index layers = Ok labels ->
             Forall (fun op => is_text op = true) labels).
  { induction layers as [|l rest IH]; intros i index ops Hrun; simpl in Hrun.
    - injection Hrun as <-. constructor.
    - destruct (delimiter cfg index l); [eapply IH; eassumption |].
      do 3 bind_inv Hrun. injection Hrun as <-.
      constructor; [reflexivity | eapply IH; eassumption]. }
  unfold shape_labels. intros Hrun.
  destruct (draw_shapes cfg =? 3); [eapply Hgrouped; eassumption |].
  destruct ((draw_shapes cfg =? 1) || (draw_shapes cfg =? 2));
    [eapply Heach; eassumption |].
  injection Hrun as <-. constructor.
Qed.

End Drawn.

Section DrawnOnTheImage.
Context `{Utils}.
Variable cfg : config.

(** What a view without legend holds: the boxes and connections, then the
    labels. *)
Lemma view_operations (model : list layer) (img : Image) :
  legend cfg = false ->
  layered_view cfg model = Ok img ->
  exists st bs labels,
    layout cfg model = Ok st
    /\ centered cfg st = Ok (new_canvas cfg st, bs)
    /\ shape_labels cfg bs model = Ok labels
    /\ img = draw_on (draw_on (new_canvas cfg st) (draw_boxes cfg bs)) labels.
Proof.
  intros Hlegend Hview.
  assert (Hmode : 0 <= draw_shapes cfg <= 3).
  { destruct (decide (0 <= draw_shapes cfg <= 3)) as [Hin|Hout];
      [exact Hin |].
    unfold layered_view in Hview.
    rewrite (proj1 (check_draw_shapes_spec cfg)) in Hview by lia.
    discriminate. }
  destruct (layout cfg model) as [st|e] eqn:Hrun.
  - destruct (view_after_layout cfg model st Hmode Hrun)
      as (bs & Hc & _ & Hyes & Hno).
    destruct (decide (0 < width (new_canvas cfg st)
                      /\ 0 < height (new_canvas cfg st))) as [Hcan|Hcan];
      [| destruct (Hno Hcan) as [Herr|Herr]; rewrite Herr in Hview;
         discriminate].
    rewrite (Hyes Hcan) in Hview.
    destruct (shape_labels cfg bs model) as [labels|e] eqn:Hlabels;
      simpl in Hview; [| discriminate].
    unfold add_legend in Hview. rewrite Hlegend in Hview.
    injection Hview as <-. exists st, bs, labels. auto.
  - unfold layered_view in Hview.
    rewrite (proj2 (check_draw_shapes_spec cfg)) in Hview by lia.
    cbn [bind] in Hview. rewrite Hrun in Hview. discriminate.
Qed.

(** X9.  On a view without legend every box of the layout is drawn exactly
    once: in the order of the model, or in the opposite order when
    [draw_reversed] is set, and always with that flag. *)
Theorem each_box_drawn_once (model : list layer) (st : layout_state)
    (canvas img : Image) (bs : list Box) :
  legend cfg = false ->
  layout cfg model = Ok st ->
  centered cfg st = Ok (canvas, bs) ->
  layered_view cfg model = Ok img ->
  boxes_drawn (ops img)
  = map (fun b => (b, draw_reversed cfg))
        (if draw_reversed cfg then rev bs else bs).
Proof.
  intros Hlegend Hrun Hc Hview.
  destruct (view_operations _ _ Hlegend Hview)
    as (st' & bs' & labels & Hrun' & Hc' & Hlabels & ->).
  rewrite Hrun in Hrun'. injection Hrun' as <-.
  rewrite Hc in Hc'. injection Hc' as -> ->.
  simpl. rewrite boxes_drawn_app.
  rewrite (proj1 (texts_not_boxes _ (shape_labels_texts _ _ _ _ Hlabels))).
  rewrite app_nil_r. apply draw_boxes_drawn.
Qed.

(** X10.  On a view without legend the number of lines drawn is four for
    each pair of neighbouring boxes when [draw_funnel] is set, in the
    forward and in the reversed view alike, and none otherwise. *)
Theorem funnel_lines_drawn (model : list layer) (st : layout_state)
    (canvas img : Image) (bs : list Box) :
  legend cfg = false ->
  layout cfg model = Ok st ->
  centered cfg st = Ok (canvas, bs) ->
  layered_view cfg model = Ok img ->
  lines_drawn (ops img)
  = if draw_funnel cfg then (4 * pred (length bs))%nat else 0%nat.
Proof.
  intros Hlegend Hrun Hc Hview.
  destruct (view_operations _ _ Hlegend Hview)
    as (st' & bs' & labels & Hrun' & Hc' & Hlabels & ->).
  rewrite Hrun in Hrun'. injection Hrun' as <-.
  rewrite Hc in Hc'. injection Hc' as -> ->.
  simpl. rewrite lines_drawn_app.
  rewrite (proj2 (texts_not_boxes _ (shape_labels_texts _ _ _ _ Hlabels))).
  rewrite Nat.add_0_r. apply draw_boxes_drawn.
Qed.

End DrawnOnTheImage.

Lemma each_box_drawn_once_witness :
  exists st canvas img b0 b1,
    layout reversed_config [Dense 10; Dense 20] = Ok st
    /\ centered reversed_config st = Ok (canvas, [b0; b1])
    /\ layered_view reversed_config [Dense 10; Dense 20] = Ok img
    /\ boxes_drawn (ops img) = [(b1, true); (b0, true)].
Proof.
  destruct (layout reversed_config [Dense 10; Dense 20])
    as [st|e] eqn:Hrun; [| vm_compute in Hrun; discriminate].
  destruct (centered reversed_config st) as [[canvas bs]|e] eqn:Hc;
    [| vm_compute in Hrun; injection Hrun as <-; vm_compute in Hc; discriminate].
  destruct (layered_view reversed_config [Dense 10; Dense 20])
    as [img|e] eqn:Hview; [| vm_compute in Hview; discriminate].
  assert (Hbs : exists b0 b1, bs = [b0; b1]).
  { vm_compute in Hrun. injection Hrun as <-. vm_compute in Hc.
    injection Hc as _ <-. eauto. }
  destruct Hbs as (b0 & b1 & ->).
  exists st, canvas, img, b0, b1.
  split; [reflexivity |]. split; [exact Hc |]. split; [reflexivity |].
  apply (each_box_drawn_once reversed_config [Dense 10; Dense 20] st canvas img
           [b0; b1] eq_refl Hrun Hc Hview).
Defined.

Lemma funnel_lines_drawn_witness :
  exists st canvas img bs,
    layout default_config [Conv2D 28 28 3; Dense 128; Dense 10] = Ok st
    /\ centered default_config st = Ok (canvas, bs)
    /\ layered_view default_config [Conv2D 28 28 3; Dense 128; Dense 10] = Ok img
    /\ lines_drawn (ops img) = 8%nat.
Proof.
  destruct (layout default_config [Conv2D 28 28 3; Dense 128; Dense 10])
    as [st|e] eqn:Hrun; [| vm_compute in Hrun; discriminate].
  destruct (centered default_config st) as [[canvas bs]|e] eqn:Hc;
    [| vm_compute in Hrun; injection Hrun as <-; vm_compute in Hc; discriminate].
  destruct (layered_view default_config [Conv2D 28 28 3; Dense 128; Dense 10])
    as [img|e] eqn:Hview; [| vm_compute in Hview; discriminate].
  exists st, canvas, img, bs.
  split; [reflexivity |]. split; [exact Hc |]. split; [reflexivity |].
  rewrite (funnel_lines_drawn default_config
             [Conv2D 28 28 3; Dense 128; Dense 10] st canvas img bs
             eq_refl Hrun Hc Hview).
  vm_compute in Hrun. injection Hrun as <-. vm_compute in Hc.
  injection Hc as _ <-. reflexivity.
Defined.

(** ** A label for every box *)

Lemma py_index_lookup {A : Type} (l : list A) (k : Z) (a : A) :
  0 <= k -> py_index l k = Ok a -> l !! Z.to_nat k = Some a.
Proof.
  intros Hk. unfold py_index.
  replace (k <? 0) with false by (symmetry; lia).
  destruct ((k <? 0) || (Z.of_nat (length l) <=? k)); [discriminate |].
  destruct (l !! Z.to_nat k); [congruence | discriminate].
Qed.

Section BoxLabels.
Variable cfg : config.

Lemma visible_from_cons (index : Z) (l : layer) (rest : list layer) :
  visible_from cfg index (l :: rest)
  = if delimiter cfg index l then visible_from cfg (index + 1) rest
    else l :: visible_from cfg (index + 1) rest.
Proof.
  unfold visible_from. simpl. rewrite filter_cons. simpl.
  destruct (delimiter cfg index l) eqn:Hd.
  - rewrite decide_False by (unfold visible; rewrite Hd; discriminate).
    reflexivity.
  - rewrite decide_True by (unfold visible; rewrite Hd; reflexivity).
    reflexivity.
Qed.

Lemma box_labels_spec (bs : list Box) (layers : list layer) :
  forall (i index : Z),
    -1 <= i ->
    i + 1 + Z.of_nat (length (visible_from cfg index layers))
      <= Z.of_nat (length bs) ->
    Forall (fun l => is_ok (shape_text (output_shape l)) = true)
           (visible_from cfg index layers) ->
    exists labels,
      box_labels cfg bs i index layers = Ok labels
      /\ length labels = length (visible_from cfg index layers)
      /\ forall (j : nat) (l : layer),
           visible_from cfg index layers !! j = Some l ->
           exists b txt,
             bs !! (Z.to_nat (i + 1) + j)%nat = Some b
             /\ shape_text (output_shape l) = Ok txt
             /\ labels !! j
                = Some (DrawText
                          (fst (label_point cfg (i + 1 + Z.of_nat j) b))
                          (snd (label_point cfg (i + 1 + Z.of_nat j) b))
                          txt (font_color cfg)).
Proof.
  induction layers as [|l rest IH]; intros i index Hi Hlen Htxt.
  - exists []. repeat split. intros j l Hj. discriminate.
  - rewrite visible_from_cons in *. simpl.
    destruct (delimiter cfg index l) eqn:Hd; [apply IH; assumption |].
    apply Forall_cons in Htxt as [Hl Hrest]. simpl in Hlen.
    destruct (py_index_in_range bs (i + 1) ltac:(lia)) as [b Hb].
    rewrite Hb. simpl.
    destruct (shape_text (output_shape l)) as [txt|e] eqn:Ht; [| discriminate].
    simpl.
    destruct (IH (i + 1) (index + 1) ltac:(lia) ltac:(lia) Hrest)
      as (more & Hmore & Hlenm & Hlook).
    rewrite Hmore. simpl. eexists. split; [reflexivity |].
    split; [simpl; congruence |].
    intros [|j] l' Hj; simpl in Hj.
    + injection Hj as <-. exists b, txt.
      rewrite Nat.add_0_r, Z.add_0_r.
      split; [apply py_index_lookup; [lia | exact Hb] |].
      split; [exact Ht |]. unfold label_point. reflexivity.
    + destruct (Hlook j l' Hj) as (b' & txt' & Hb' & Ht' & Hop).
      exists b', txt'.
      replace (Z.to_nat (i + 1) + S j)%nat
        with (Z.to_nat (i + 1 + 1) + j)%nat by lia.
      replace (i + 1 + Z.of_nat (S j)) with (i + 1 + 1 + Z.of_nat j) by lia.
      auto.
Qed.

(** X11.  With [draw_shapes] 1 or 2, when there is a box for every visible
    layer and the text of every visible shape can be written, the labels
    are one text for every visible layer, in the order of the model: the
    text of the output shape of that very layer, below its box, or above
    it for the boxes of odd index when [draw_shapes] is 2. *)
Theorem a_label_for_every_box (bs : list Box) (model : list layer) :
  draw_shapes cfg = 1 \/ draw_shapes cfg = 2 ->
  length bs = length (visible_layers cfg model) ->
  Forall (fun l => is_ok (shape_text (output_shape l)) = true)
         (visible_layers cfg model) ->
  exists labels,
    shape_labels cfg bs model = Ok labels
    /\ length labels = length bs
    /\ forall (k : nat) (l : layer) (b : Box),
         visible_layers cfg model !! k = Some l ->
         bs !! k = Some b ->
         exists txt,
           shape_text (output_shape l) = Ok txt
           /\ labels !! k
              = Some (DrawText (fst (label_point cfg (Z.of_nat k) b))
                               (snd (label_point cfg (Z.of_nat k) b))
                               txt (font_color cfg)).
Proof.
  intros Hmode Hlen Htxt.
  change (visible_layers cfg model) with (visible_from cfg 0 model) in *.
  destruct (box_labels_spec bs model (-1) 0 ltac:(lia) ltac:(lia) Htxt)
    as (labels & Hrun & Hlenl & Hlook).
  exists labels. split; [| split; [congruence |]].
  - unfold shape_labels.
    replace (draw_shapes cfg =? 3) with false by (symmetry; lia).
    replace ((draw_shapes cfg =? 1) || (draw_shapes cfg =? 2)) with true
      by (symmetry; apply orb_true_iff; lia).
    exact Hrun.
  - intros k l b Hl Hb. destruct (Hlook k l Hl) as (b' & txt & Hb' & Ht & Hop).
    simpl in Hb'. rewrite Hb in Hb'. injection Hb' as <-.
    exists txt. split; [exact Ht |].
    replace (-1 + 1 + Z.of_nat k) with (Z.of_nat k) in Hop by lia. exact Hop.
Qed.

End BoxLabels.

Lemma a_label_for_every_box_witness :
  exists img bs labels,
    (let* st := layout default_config [Dense 10; Spacing 10 50; Dense 20] in
     centered default_config st) = Ok (img, bs)
    /\ shape_labels (with_draw_shapes default_config 2) bs
         [Dense 10; Spacing 10 50; Dense 20] = Ok labels
    /\ length labels = 2%nat.
Proof.
  destruct (let* st := layout default_config [Dense 10; Spacing 10 50; Dense 20] in
            centered default_config st) as [[img bs]|e] eqn:Hc;
    [| vm_compute in Hc; discriminate].
  assert (Hlen : length bs = 2%nat)
    by (vm_compute in Hc; injection Hc as _ <-; reflexivity).
  destruct (a_label_for_every_box (with_draw_shapes default_config 2) bs
              [Dense 10; Spacing 10 50; Dense 20])
    as (labels & Hrun & Hl & _).
  - right. reflexivity.
  - rewrite Hlen. reflexivity.
  - repeat constructor.
  - exists img, bs, labels. split; [reflexivity |]. split; [exact Hrun |].
    congruence.
Defined.

(** ** The legend *)

Lemma elem_of_first_appearances (t : string) (l : list string) :
  t ∈ first_appearances l <-> t ∈ l.
Proof.
  induction l as [|x rest IH]; simpl; [reflexivity |].
  rewrite !elem_of_cons, list_elem_of_filter, IH.
  destruct (decide (t = x)); tauto.
Qed.

Lemma first_appearances_NoDup (l : list string) : NoDup (first_appearances l).
Proof.
  induction l as [|x rest IH]; simpl; [constructor |].
  constructor; [| apply NoDup_filter, IH].
  rewrite list_elem_of_filter. tauto.
Qed.

Lemma first_appearances_snoc (l : list string) (t : string) :
  first_appearances (l ++ [t])
  = if bool_decide (t ∈ l) then first_appearances l
    else first_appearances l ++ [t].
Proof.
  induction l as [|x rest IH].
  - case_bool_decide as Hin; [| reflexivity].
    apply not_elem_of_nil in Hin. contradiction.
  - simpl. rewrite IH. case_bool_decide as Hrest.
    + rewrite bool_decide_eq_true_2 by (apply elem_of_cons; auto). reflexivity.
    + rewrite filter_app, filter_cons, filter_nil.
      destruct (decide (t <> x)) as [Hne|Heq].
      * rewrite bool_decide_eq_false_2; [reflexivity |].
        rewrite elem_of_cons. tauto.
      * assert (t = x) as -> by (destruct (decide (t = x)); tauto).
        rewrite bool_decide_eq_true_2 by (apply elem_of_cons; auto).
        rewrite app_nil_r. reflexivity.
Qed.

Section TheLegend.
Context `{Utils}.
Variable cfg : config.

Lemma layout_layer_types (model : list layer) (st : layout_state) :
  layout cfg model = Ok st ->
  layer_types st = first_appearances (map ltype (visible_layers cfg model)).
Proof.
  intros Hrun.
  apply (layout_loop_invariant cfg
           (fun seen s => layer_types s = first_appearances (map ltype seen)))
    with (seen := []) (layers := model) (st := layout_init cfg) (index := 0);
    [| reflexivity | exact Hrun].
  clear. intros seen st index l st' Hinv Hstep.
  unfold layout_step in Hstep.
  destruct (visible cfg index l) eqn:Hv.
  - destruct (visible_cases _ _ _ Hv) as [Hi Hs]. rewrite Hi, Hs in Hstep.
    bind_inv Hstep. destruct a as [[x y] z]. injection Hstep as <-.
    unfold place_box. destruct (get_color (wheel st) (ltype l)) as [c w]. simpl.
    rewrite map_app. cbn [map]. rewrite first_appearances_snoc, Hinv.
    rewrite (bool_decide_ext _ _ (elem_of_first_appearances _ _)).
    reflexivity.
  - rewrite app_nil_r.
    destruct (not_visible_cases _ _ _ Hv) as [Hc|Hc].
    + rewrite Hc in Hstep. injection Hstep as <-. exact Hinv.
    + destruct (ignored cfg index l); [injection Hstep as <-; exact Hinv |].
      rewrite Hc in Hstep. injection Hstep as <-. exact Hinv.
Qed.

(** X12.  The legend has one patch for every type of visible layer, and
    no other: the types without repetition, in the order in which they
    first appear in the model.  The patch of a type shows its swatch and
    then its name. *)
Theorem legend_of_visible_types (model : list layer) (st : layout_state) :
  layout cfg model = Ok st ->
  let types := first_appearances (map ltype (visible_layers cfg model)) in
  let patches := legend_patches cfg (cmap st) (layer_types st) in
  layer_types st = types
  /\ NoDup types
  /\ length patches = length types
  /\ forall (k : nat) (t : string),
       types !! k = Some t ->
       exists patch cube_size lde x y,
         patches !! k = Some patch
         /\ ops patch = [DrawBox (legend_box cfg (cmap st) cube_size lde t)
                                 (draw_reversed cfg);
                         DrawText x y t (font_color cfg)].
Proof.
  intros Hrun types patches.
  pose proof (layout_layer_types _ _ Hrun) as Htypes.
  split; [exact Htypes |]. split; [apply first_appearances_NoDup |].
  unfold patches, legend_patches. rewrite Htypes. fold types.
  split; [apply length_map |].
  intros k t Hk. rewrite list_lookup_fmap, Hk. simpl.
  do 5 eexists. split; reflexivity.
Qed.

End TheLegend.

Lemma legend_of_visible_types_witness :
  exists st,
    layout default_config [Dense 128; Conv2D 28 28 3; Spacing 3 50; Dense 10] = Ok st
    /\ layer_types st = ["Dense"; "Conv2D"]
    /\ length (legend_patches default_config (cmap st) (layer_types st)) = 2%nat.
Proof.
  destruct (layout default_config
              [Dense 128; Conv2D 28 28 3; Spacing 3 50; Dense 10])
    as [st|e] eqn:Hrun; [| vm_compute in Hrun; discriminate].
  destruct (legend_of_visible_types default_config
              [Dense 128; Conv2D 28 28 3; Spacing 3 50; Dense 10] st Hrun)
    as (Htypes & _ & Hlen & _).
  exists st. split; [reflexivity |]. split; [exact Htypes | exact Hlen].
Defined.

(** ** The colours the caller asks for *)

Section CallerColours.
Context `{Utils}.
Variable cfg : config.

(** What the first loop keeps of the caller's [color_map]. *)
Lemma layout_color_map (model : list layer) (st : layout_state) :
  layout cfg model = Ok st ->
  (forall t, get_outline (cmap st) t (ColorName "black") = wanted_outline cfg t)
  /\ (forall t f, wanted_fill cfg t = Some f ->
                  cmap st !! t ≫= entry_fill = Some f)
  /\ (forall t, t ∉ map ltype (visible_layers cfg model) ->
                cmap st !! t = color_map cfg !! t)
  /\ Forall2 (fun l b =>
                outline b = wanted_outline cfg (ltype l)
                /\ forall f, wanted_fill cfg (ltype l) = Some f -> fill b = f)
             (visible_layers cfg model) (boxes st).
Proof.
  intros Hrun.
  apply (layout_loop_invariant cfg
           (fun seen s =>
              (forall t, get_outline (cmap s) t (ColorName "black")
                         = wanted_outline cfg t)
              /\ (forall t f, wanted_fill cfg t = Some f ->
                              cmap s !! t ≫= entry_fill = Some f)
              /\ (forall t, t ∉ map ltype seen -> cmap s !! t = color_map cfg !! t)
              /\ Forall2 (fun l b =>
                            outline b = wanted_outline cfg (ltype l)
                            /\ forall f, wanted_fill cfg (ltype l) = Some f ->
                                         fill b = f)
                         seen (boxes s)))
    with (seen := []) (layers := model) (st := layout_init cfg) (index := 0);
    [| repeat split; auto; constructor | exact Hrun].
  clear. intros seen st index l st' (Hout & Hfill & Hrest & Hboxes) Hstep.
  unfold layout_step in Hstep.
  destruct (visible cfg index l) eqn:Hv.
  - destruct (visible_cases _ _ _ Hv) as [Hi Hs]. rewrite Hi, Hs in Hstep.
    bind_inv Hstep. destruct a as [[x y] z]. injection Hstep as <-.
    unfold place_box. destruct (get_color (wheel st) (ltype l)) as [c w]. simpl.
    split; [| split; [| split]].
    + intros t. destruct (decide (ltype l = t)) as [<-|Hne].
      * unfold get_outline at 1. rewrite lookup_insert_eq. simpl. apply Hout.
      * unfold get_outline at 1. rewrite lookup_insert_ne by exact Hne.
        apply Hout.
    + intros t f Hf. destruct (decide (ltype l = t)) as [<-|Hne].
      * rewrite lookup_insert_eq. simpl. unfold get_fill.
        rewrite (Hfill _ _ Hf). reflexivity.
      * rewrite lookup_insert_ne by exact Hne. apply Hfill, Hf.
    + intros t Ht. rewrite map_app, elem_of_app in Ht. simpl in Ht.
      rewrite lookup_insert_ne; [apply Hrest; tauto |].
      intros <-. apply Ht. right. apply list_elem_of_singleton. reflexivity.
    + apply Forall2_app; [exact Hboxes |].
      constructor; [| constructor]. simpl. split; [apply Hout |].
      intros f Hf. unfold get_fill. rewrite (Hfill _ _ Hf). reflexivity.
  - rewrite app_nil_r.
    destruct (not_visible_cases _ _ _ Hv) as [Hc|Hc].
    + rewrite Hc in Hstep. injection Hstep as <-. auto.
    + destruct (ignored cfg index l); [injection Hstep as <-; auto |].
      rewrite Hc in Hstep. injection Hstep as <-. auto.
Qed.

(** X13.  The outline of every box that is drawn is the one the caller's
    [color_map] gives for the type of its layer, and ['black'] when it
    gives none; its fill is the one the [color_map] gives for that type,
    when it gives one. *)
Theorem caller_colours_used (model : list layer) (st : layout_state)
    (img : Image) (bs : list Box) :
  layout cfg model = Ok st ->
  centered cfg st = Ok (img, bs) ->
  forall (k : nat) (l : layer) (b : Box),
    visible_layers cfg model !! k = Some l ->
    bs !! k = Some b ->
    outline b = wanted_outline cfg (ltype l)
    /\ forall f, wanted_fill cfg (ltype l) = Some f -> fill b = f.
Proof.
  intros Hrun Hc k l b Hl Hb.
  destruct (layout_color_map _ _ Hrun) as (_ & _ & _ & Hboxes).
  unfold centered in Hc. bind_inv Hc. injection Hc as <- <-.
  pose proof (center_boxes_colors _ _ _ _ _ Ha) as Hsame.
  destruct (Forall2_lookup_r _ _ _ _ _ Hsame Hb) as (u & Hu & Hf & Ho).
  destruct (Forall2_lookup_lr _ _ _ _ _ _ Hboxes Hl Hu) as [Hout Hfill].
  split; [congruence |]. intros f Hw. rewrite Hf. apply Hfill, Hw.
Qed.

(** X14.  The run writes into the [color_map] it was given only at the
    types of the visible layers: there it leaves an entry with both
    colours; every other entry is as the caller gave it. *)
Theorem color_map_after_the_run (model : list layer) (st : layout_state) :
  layout cfg model = Ok st ->
  forall t : string,
    (t ∈ map ltype (visible_layers cfg model) ->
       exists f o, cmap st !! t = Some (ColorEntry (Some f) (Some o)))
    /\ (t ∉ map ltype (visible_layers cfg model) ->
          cmap st !! t = color_map cfg !! t).
Proof.
  intros Hrun t. split.
  - intros Hin. apply list_elem_of_fmap in Hin as (l & -> & Hl).
    apply list_elem_of_lookup in Hl as [k Hk].
    pose proof (layout_colored cfg _ _ Hrun) as Hcol.
    destruct (Forall2_lookup_l _ _ _ _ _ Hcol Hk) as (b & _ & Hmap & _).
    eauto.
  - destruct (layout_color_map _ _ Hrun) as (_ & _ & Hrest & _). apply Hrest.
Qed.

End CallerColours.

Lemma caller_colours_used_witness :
  exists st img b0 b1,
    layout painted_config [Dense 128; Conv2D 28 28 3] = Ok st
    /\ centered painted_config st = Ok (img, [b0; b1])
    /\ fill b0 = ColorName "red" /\ outline b0 = ColorName "black"
    /\ outline b1 = ColorName "black".
Proof.
  destruct (layout painted_config [Dense 128; Conv2D 28 28 3])
    as [st|e] eqn:Hrun; [| vm_compute in Hrun; discriminate].
  destruct (centered painted_config st) as [[img bs]|e] eqn:Hc;
    [| vm_compute in Hrun; injection Hrun as <-; vm_compute in Hc; discriminate].
  assert (Hbs : exists b0 b1, bs = [b0; b1]).
  { vm_compute in Hrun. injection Hrun as <-. vm_compute in Hc.
    injection Hc as _ <-. eauto. }
  destruct Hbs as (b0 & b1 & ->).
  destruct (caller_colours_used painted_config [Dense 128; Conv2D 28 28 3]
              st img [b0; b1] Hrun Hc 0%nat (Dense 128) b0 eq_refl eq_refl)
    as [Ho0 Hf0].
  destruct (caller_colours_used painted_config [Dense 128; Conv2D 28 28 3]
              st img [b0; b1] Hrun Hc 1%nat (Conv2D 28 28 3) b1 eq_refl eq_refl)
    as [Ho1 _].
  exists st, img, b0, b1. split; [reflexivity |]. split; [exact Hc |].
  split; [apply Hf0; reflexivity |]. split; [exact Ho0 | exact Ho1].
Defined.

Lemma color_map_after_the_run_witness :
  exists st,
    layout painted_config [Dense 128; Conv2D 28 28 3] = Ok st
    /\ cmap st !! "Dropout"
       = Some (ColorEntry (Some (ColorName "grey")) (Some (ColorName "blue")))
    /\ exists f o, cmap st !! "Dense" = Some (ColorEntry (Some f) (Some o)).
Proof.
  destruct (layout painted_config [Dense 128; Conv2D 28 28 3])
    as [st|e] eqn:Hrun; [| vm_compute in Hrun; discriminate].
  exists st. split; [reflexivity |].
  destruct (color_map_after_the_run painted_config
              [Dense 128; Conv2D 28 28 3] st Hrun "Dropout") as [_ Hkeep].
  destruct (color_map_after_the_run painted_config
              [Dense 128; Conv2D 28 28 3] st Hrun "Dense") as [Hset _].
  split.
  - rewrite Hkeep; [reflexivity |].
    intros Hin. vm_compute in Hin.
    repeat (apply elem_of_cons in Hin as [Hin|Hin]; [discriminate |]).
    apply not_elem_of_nil in Hin. exact Hin.
  - apply Hset. apply elem_of_cons. left. reflexivity.
Defined.

(** ** Layers ignored by type *)

Section IgnoredByType.
Context `{Utils}.
Variable cfg : config.
Hypothesis no_index : index_ignore cfg = [].

Lemma ignored_by_type (index : Z) (l : layer) :
  ignored cfg index l = bool_decide (ltype l ∈ type_ignore cfg).
Proof.
  unfold ignored. rewrite no_index.
  rewrite (bool_decide_eq_false_2 (index ∈ [])) by apply not_elem_of_nil.
  apply orb_false_r.
Qed.

Lemma delimiter_by_type (index : Z) (l : layer) :
  delimiter cfg index l
  = bool_decide (ltype l ∈ type_ignore cfg) || is_spacing l.
Proof.
  unfold delimiter. rewrite no_index.
  rewrite (bool_decide_eq_false_2 (index ∈ [])) by apply not_elem_of_nil.
  apply orb_false_r.
Qed.

Lemma layout_step_any_index (st : layout_state) (i j : Z) (l : layer) :
  layout_step cfg st i l = layout_step cfg st j l.
Proof. unfold layout_step. rewrite !ignored_by_type. reflexivity. Qed.

Lemma layout_loop_without_ignored (layers : list layer) :
  forall (st : layout_state) (i j : Z),
    layout_loop cfg st i layers
    = layout_loop cfg st j (without_ignored cfg layers).
Proof.
  unfold without_ignored.
  induction layers as [|l rest IH]; intros st i j; [reflexivity |].
  rewrite filter_cons. simpl.
  destruct (decide (ltype l ∉ type_ignore cfg)) as [Hkeep|Hdrop].
  - simpl. rewrite (layout_step_any_index st i j).
    destruct (layout_step cfg st j l); simpl; [apply IH | reflexivity].
  - unfold layout_step. rewrite ignored_by_type.
    rewrite bool_decide_eq_true_2
      by (destruct (decide (ltype l ∈ type_ignore cfg)); tauto).
    simpl. apply IH.
Qed.

Lemma box_labels_without_ignored (bs : list Box) (layers : list layer) :
  forall (k i j : Z),
    box_labels cfg bs k i layers
    = box_labels cfg bs k j (without_ignored cfg layers).
Proof.
  unfold without_ignored.
  induction layers as [|l rest IH]; intros k i j; [reflexivity |].
  rewrite filter_cons. simpl.
  destruct (decide (ltype l ∉ type_ignore cfg)) as [Hkeep|Hdrop].
  - simpl. rewrite !delimiter_by_type.
    destruct (bool_decide (ltype l ∈ type_ignore cfg) || is_spacing l);
      [apply IH |].
    destruct (py_index bs (k + 1)); simpl; [| reflexivity].
    destruct (shape_text (output_shape l)); simpl; [| reflexivity].
    rewrite (IH (k + 1) (i + 1) (j + 1)). reflexivity.
  - rewrite delimiter_by_type.
    rewrite bool_decide_eq_true_2
      by (destruct (decide (ltype l ∈ type_ignore cfg)); tauto).
    simpl. apply IH.
Qed.

(** X15.  When no layer is ignored by index and the labels are not the
    grouped ones, the layers whose type is in [type_ignore] might as well
    not be in the model: [layered_view] returns the same image, or raises
    the same exception, as on the model without them. *)
Theorem ignored_types_as_absent (model : list layer) :
  draw_shapes cfg <> 3 ->
  layered_view cfg model = layered_view cfg (without_ignored cfg model).
Proof.
  intros Hmode. unfold layered_view, layout.
  rewrite <- (layout_loop_without_ignored model (layout_init cfg) 0 0).
  destruct (check_draw_shapes cfg); simpl; [| reflexivity].
  destruct (layout_loop cfg (layout_init cfg) 0 model) as [st|e]; simpl;
    [| reflexivity].
  destruct (Image_new (Qceiling (img_width cfg st))
              (Qceiling (img_height st + inject_Z (padding_vertical cfg)))
              (background_fill cfg)) as [img|e]; cbn [bind]; [| reflexivity].
  destruct (center_boxes img (x_off st) (boxes st) (layer_y st)) as [bs|e];
    cbn [bind]; [| reflexivity].
  destruct (flush (draw_on img (draw_boxes cfg bs))) as [[]|e]; cbn [bind];
    [| reflexivity].
  replace (shape_labels cfg bs (without_ignored cfg model))
    with (shape_labels cfg bs model); [reflexivity |].
  unfold shape_labels.
  replace (draw_shapes cfg =? 3) with false by (symmetry; lia).
  destruct ((draw_shapes cfg =? 1) || (draw_shapes cfg =? 2)); [| reflexivity].
  apply box_labels_without_ignored.
Qed.

End IgnoredByType.

Lemma ignored_types_as_absent_witness :
  layered_view ignoring_config
    [Dense 10; Layer "Dropout" (ShapeTuple [None; Some 10]) 0; Dense 20]
  = layered_view ignoring_config [Dense 10; Dense 20].
Proof.
  apply (ignored_types_as_absent ignoring_config eq_refl
           [Dense 10; Layer "Dropout" (ShapeTuple [None; Some 10]) 0; Dense 20]).
  simpl. lia.
Defined.

(** ** Grouped labels: when they raise and when they do not *)

Section GroupedRuns.
Context `{Utils}.
Variable cfg : config.

(** When the grouped labels raise whatever the boxes, no image is
    returned; on a canvas that [Image.new] and [flush] accept, the
    exception is the one the labels raise. *)
Lemma failing_labels_fail_the_view (model : list layer) :
  draw_shapes cfg = 3 ->
  (forall bs, is_ok (shape_labels cfg bs model) = false) ->
  (exists e, layered_view cfg model = Err e)
  /\ (forall st,
        layout cfg model = Ok st ->
        canvas_drawable cfg st ->
        Forall (fun l => is_ok (shape_text (output_shape l)) = true) model ->
        layered_view cfg model = Err RuntimeError_spacing_layer).
Proof.
  intros Hmode Hfail. split.
  - destruct (layout cfg model) as [st|e] eqn:Hrun.
    + destruct (view_after_layout cfg model st ltac:(lia) Hrun)
        as (bs & _ & _ & Hyes & Hno).
      destruct (decide (0 < width (new_canvas cfg st)
                        /\ 0 < height (new_canvas cfg st))) as [Hcan|Hcan].
      * rewrite (Hyes Hcan).
        destruct (is_ok_false _ (Hfail bs)) as [e He]. rewrite He.
        simpl. eauto.
      * destruct (Hno Hcan) as [-> | ->]; eauto.
    + unfold layered_view.
      rewrite (proj2 (check_draw_shapes_spec cfg)) by lia. cbn [bind].
      rewrite Hrun. simpl. eauto.
  - intros st Hrun Hcan Htxt.
    pose proof (layout_boxes_of_layers cfg _ _ Hrun) as Hboxes.
    apply Forall2_length in Hboxes.
    destruct (view_after_layout cfg model st ltac:(lia) Hrun)
      as (bs & _ & Hlen & Hyes & _).
    rewrite (Hyes Hcan).
    destruct (is_ok_false _ (Hfail bs)) as [e He]. rewrite He. simpl. f_equal.
    unfold shape_labels in He. rewrite Hmode in He. simpl in He.
    eapply grouped_labels_error; [| | exact Htxt | exact He]; [lia |].
    unfold visible_layers, enumerate in Hboxes. rewrite length_map in Hboxes.
    lia.
Qed.

Lemma grouped_labels_leading (bs : list Box) (n i index : Z) (l : layer)
    (rest : list layer) :
  delimiter cfg index l = true ->
  grouped_labels cfg bs n i i index (l :: rest) = Err RuntimeError_spacing_layer.
Proof.
  intros Hd. simpl. unfold segment_end. rewrite Hd.
  replace (i - i <=? 0) with true by (symmetry; lia). reflexivity.
Qed.

Lemma grouped_labels_trailing (bs : list Box) (n : Z) (layers : list layer) :
  forall (i sli index : Z) (l : layer),
    last layers = Some l ->
    index + Z.of_nat (length layers) = n ->
    delimiter cfg (n - 1) l = true ->
    is_ok (grouped_labels cfg bs n i sli index layers) = false.
Proof.
  induction layers as [|l0 rest IH]; intros i sli index l Hlast Hn Hd;
    [discriminate |].
  destruct rest as [|l1 rest'].
  - injection Hlast as ->. simpl in Hn.
    replace (n - 1) with index in Hd by lia. cbn [grouped_labels].
    destruct (segment_end cfg bs i sli index l) as [[[i' sli'] text]|e] eqn:Hseg;
      simpl; [| reflexivity].
    destruct (segment_end_delimiter _ _ _ _ _ _ _ _ _ Hd Hseg) as (-> & -> & _).
    apply bind_fails_l. unfold model_end.
    replace (index =? n - 1) with true by (symmetry; lia).
    replace (i - i <=? 0) with true by (symmetry; lia). reflexivity.
  - cbn [grouped_labels]. apply bind_fails_r. intros [[i' sli'] text].
    do 2 (apply bind_fails_r; intros ?). apply bind_fails_l.
    apply (IH i' sli' (index + 1) l); [| simpl in *; lia | exact Hd].
    rewrite last_cons_cons in Hlast. exact Hlast.
Qed.

(** X16.  With grouped labels, a model that begins or ends with a layer
    without a box (a spacer or an ignored layer) never gets an image; the
    exception is the [RuntimeError] of lines 245 and 269 whenever the
    layout raised nothing, the canvas has a positive width and height, so
    that [Image.new] and [flush] accept it, and every text can be
    written. *)
Theorem open_ended_model_fails (model : list layer) :
  draw_shapes cfg = 3 ->
  open_ended cfg model ->
  (exists e, layered_view cfg model = Err e)
  /\ (forall st,
        layout cfg model = Ok st ->
        canvas_drawable cfg st ->
        Forall (fun l => is_ok (shape_text (output_shape l)) = true) model ->
        layered_view cfg model = Err RuntimeError_spacing_layer).
Proof.
  intros Hmode Hopen. apply failing_labels_fail_the_view; [exact Hmode |].
  intros bs. unfold shape_labels. rewrite Hmode. simpl.
  destruct Hopen as [(l & rest & -> & Hd) | (l & Hlast & Hd)].
  - rewrite grouped_labels_leading by exact Hd. reflexivity.
  - apply (grouped_labels_trailing bs _ model (-1) (-1) 0 l Hlast);
      [lia | exact Hd].
Qed.

Lemma grouped_labels_succeed (bs : list Box) (n : Z) (layers : list layer) :
  forall (i sli index : Z) (after_delimiter : bool),
    well_segmented cfg after_delimiter index layers = true ->
    -1 <= sli <= i ->
    (after_delimiter = false -> sli < i) ->
    i + 1 + Z.of_nat (length (visible_from cfg index layers))
      <= Z.of_nat (length bs) ->
    Forall (fun l => is_ok (shape_text (output_shape l)) = true) layers ->
    index + Z.of_nat (length layers) = n ->
    exists labels, grouped_labels cfg bs n i sli index layers = Ok labels.
Proof.
  induction layers as [|l rest IH];
    intros i sli index after Hseg Hinv Hafter Hlen Htxt Hn.
  - exists []. reflexivity.
  - apply Forall_cons in Htxt as [Hl Hrest].
    destruct (shape_text (output_shape l)) as [txt|e] eqn:Ht; [| discriminate].
    rewrite visible_from_cons in Hlen. simpl in Hseg. cbn [grouped_labels].
    destruct (delimiter cfg index l) eqn:Hd.
    + apply andb_true_iff in Hseg as [Hafter' Hseg].
      apply negb_true_iff in Hafter'. specialize (Hafter Hafter').
      assert (Hrest_ne : rest <> []) by (intros ->; discriminate Hseg).
      destruct (inner_segment_anchor cfg bs i sli index l Hd ltac:(lia)
                  ltac:(lia)) as (_ & box & _ & ->).
      cbn [bind].
      rewrite model_end_inside
        by (destruct rest; [contradiction | simpl in Hn; lia]).
      cbn [bind draw_label]. rewrite Ht. cbn [bind].
      destruct (IH i i (index + 1) true Hseg ltac:(lia) ltac:(discriminate)
                  Hlen Hrest ltac:(simpl in Hn; lia)) as [more ->].
      destruct ((i - sli) mod 2 =? 1); eexists; reflexivity.
    + rewrite segment_end_visible by exact Hd. cbn [bind]. simpl in Hlen.
      destruct rest as [|l' rest'].
      * unfold model_end.
        replace (index =? n - 1) with true by (simpl in Hn; symmetry; lia).
        replace (i + 1 - sli <=? 0) with false by (symmetry; lia).
        destruct (py_index_in_range bs (i + 1) ltac:(lia)) as [box ->].
        destruct (i + 1 - sli mod 2 =? 1); cbn [bind draw_label];
          rewrite Ht; eexists; reflexivity.
      * rewrite model_end_inside by (simpl in Hn; lia). cbn [bind draw_label].
        destruct (IH (i + 1) sli (index + 1) false Hseg ltac:(lia) ltac:(lia)
                    ltac:(lia) Hrest ltac:(simpl in Hn; simpl; lia))
          as [more ->].
        eexists. reflexivity.
Qed.

(** X17.  With grouped labels, when the model begins and ends with a
    visible layer, no two layers without a box follow each other, there is
    a box for every visible layer and every text can be written, the
    labels are drawn without exception: one for each layer without a box
    and one for the end of the model. *)
Theorem grouped_labels_drawn (bs : list Box) (model : list layer) :
  draw_shapes cfg = 3 ->
  well_segmented cfg true 0 model = true ->
  length bs = length (visible_layers cfg model) ->
  Forall (fun l => is_ok (shape_text (output_shape l)) = true) model ->
  exists labels,
    shape_labels cfg bs model = Ok labels
    /\ length labels = S (length (delimiters cfg model)).
Proof.
  intros Hmode Hseg Hlen Htxt.
  unfold shape_labels. rewrite Hmode. simpl.
  destruct (grouped_labels_succeed bs (Z.of_nat (length model)) model
              (-1) (-1) 0 true Hseg ltac:(lia) ltac:(discriminate))
    as [labels Hrun]; [| exact Htxt | lia |].
  { change (visible_from cfg 0 model) with (visible_layers cfg model). lia. }
  exists labels. split; [exact Hrun |].
  pose proof (grouped_labels_sources cfg bs (Z.of_nat (length model)) model
                (-1) (-1) 0 labels ltac:(lia) Hrun) as Hsrc.
  apply Forall2_length in Hsrc. rewrite Hsrc, length_app.
  fold (delimiters cfg model).
  destruct model as [|l rest]; [discriminate Hseg |].
  unfold last_layer. destruct (last (l :: rest)) eqn:Hlast; simpl; [lia |].
  apply last_None in Hlast. discriminate.
Qed.

End GroupedRuns.

Lemma open_ended_model_fails_witness :
  layered_view (with_draw_shapes default_config 3) [Dense 10; Spacing 10 50]
  = Err RuntimeError_spacing_layer.
Proof.
  destruct (layout (with_draw_shapes default_config 3) [Dense 10; Spacing 10 50])
    as [st|e] eqn:Hrun; [| vm_compute in Hrun; discriminate].
  assert (Hopen : open_ended (with_draw_shapes default_config 3)
                    [Dense 10; Spacing 10 50]).
  { right. exists (Spacing 10 50). split; reflexivity. }
  apply (proj2 (open_ended_model_fails (with_draw_shapes default_config 3)
                  [Dense 10; Spacing 10 50] eq_refl Hopen) st Hrun);
    [| repeat constructor].
  vm_compute in Hrun. injection Hrun as <-.
  unfold canvas_drawable. vm_compute. split; reflexivity.
Defined.

Lemma grouped_labels_drawn_witness :
  exists img bs labels,
    (let* st := layout default_config [Dense 10; Dense 20; Spacing 20 50; Dense 30] in
     centered default_config st) = Ok (img, bs)
    /\ shape_labels (with_draw_shapes default_config 3) bs
         [Dense 10; Dense 20; Spacing 20 50; Dense 30] = Ok labels
    /\ length labels = 2%nat.
Proof.
  destruct (let* st := layout default_config
                         [Dense 10; Dense 20; Spacing 20 50; Dense 30] in
            centered default_config st) as [[img bs]|e] eqn:Hc;
    [| vm_compute in Hc; discriminate].
  assert (Hlen : length bs = 3%nat)
    by (vm_compute in Hc; injection Hc as _ <-; reflexivity).
  destruct (grouped_labels_drawn (with_draw_shapes default_config 3) bs
              [Dense 10; Dense 20; Spacing 20 50; Dense 30])
    as (labels & Hrun & Hl).
  - reflexivity.
  - reflexivity.
  - rewrite Hlen. reflexivity.
  - repeat constructor.
  - exists img, bs, labels. split; [reflexivity |]. split; [exact Hrun |].
    exact Hl.
Defined.

(** ** The text of a shape *)

Lemma string_app_assoc (a b c : string) : (a +:+ b) +:+ c = a +:+ (b +:+ c).
Proof.
  induction a as [|ch a IH]; [reflexivity |].
  change (String ch ((a +:+ b) +:+ c) = String ch (a +:+ (b +:+ c))).
  f_equal. exact IH.
Qed.

Lemma string_app_nil_r (a : string) : a +:+ EmptyString = a.
Proof.
  induction a as [|ch a IH]; [reflexivity |].
  change (String ch (a +:+ EmptyString) = String ch a).
  f_equal. exact IH.
Qed.

Lemma output_shape_txt_snoc (ds : list Z) :
  forall (n ii d : Z),
    ii + Z.of_nat (length ds) + 1 = n ->
    output_shape_txt n ii (ds ++ [d])
    = match ds with
      | [] => str d
      | _ => String.concat "x" (map str ds) +:+ newline +:+ str d
      end.
Proof.
  induction ds as [|a ds' IH]; intros n ii d Hn; simpl in Hn.
  - simpl.
    replace (ii <? n - 2) with false by (symmetry; lia).
    replace (ii =? n - 2) with false by (symmetry; lia).
    simpl. apply string_app_nil_r.
  - cbn [app output_shape_txt].
    rewrite (IH n (ii + 1) d) by lia.
    destruct ds' as [|b ds''].
    + simpl in Hn.
      replace (ii <? n - 2) with false by (symmetry; lia).
      replace (ii =? n - 2) with true by (symmetry; lia).
      reflexivity.
    + simpl in Hn.
      replace (ii <? n - 2) with true by (symmetry; lia).
      replace (ii =? n - 2) with false by (symmetry; lia).
      cbn [map String.concat].
      rewrite !string_app_assoc. reflexivity.
Qed.

(** X18.  The text of a shape is made of its known dimensions: all but the
    last joined by ["x"], a line break, then the last one; a single
    dimension is written alone.  A tuple without a known dimension raises
    [IndexError]; inside a list it gives the empty text. *)
Theorem shape_text_format (t : list (option Z)) (more : list (list (option Z))) :
  (forall (ds : list Z) (d : Z),
     drop_none t = ds ++ [d] ->
     let txt := match ds with
                | [] => str d
                | _ => String.concat "x" (map str ds) +:+ newline +:+ str d
                end in
     shape_text (ShapeTuple t) = Ok txt
     /\ shape_text (ShapeList (t :: more)) = Ok txt)
  /\ (drop_none t = [] ->
      shape_text (ShapeTuple t) = Err IndexError
      /\ shape_text (ShapeList (t :: more)) = Ok EmptyString).
Proof.
  split.
  - intros ds d Hdims txt.
    assert (Htxt : dims_txt (drop_none t) = txt).
    { rewrite Hdims. unfold dims_txt. apply output_shape_txt_snoc.
      rewrite length_app. simpl. lia. }
    unfold shape_text. rewrite Htxt.
    destruct (drop_none t) as [|d0 ds0] eqn:Hd; [| rewrite <- Htxt; auto].
    destruct ds; discriminate.
  - intros Hnone. unfold shape_text. rewrite Hnone. split; reflexivity.
Qed.

Lemma shape_text_format_witness :
  shape_text (ShapeTuple [None; Some 28; Some 28; Some 3])
  = Ok ("28x28" +:+ newline +:+ "3")
  /\ shape_text (ShapeTuple [None; None]) = Err IndexError.
Proof.
  split.
  - apply (proj1 (shape_text_format [None; Some 28; Some 28; Some 3] [])
             [28; 28] 3 eq_refl).
  - apply (proj2 (shape_text_format [None; None] []) eq_refl).
Defined.

(** ** The gap between two boxes *)

Section Gap.
Context `{Utils}.
Variable cfg : config.

(** The box a visible layer adds, and where the cursor goes. *)
Lemma layout_step_box (st st' : layout_state) (index : Z) (l : layer) :
  visible cfg index l = true ->
  layout_step cfg st index l = Ok st' ->
  exists (b : Box) (z : Q),
    boxes st' = boxes st ++ [b]
    /\ x1 b = (current_z st - de b / 2)%Q
    /\ x2 b = (x1 b + z)%Q
    /\ current_z st' = (current_z st + (z + inject_Z (spacing cfg)))%Q.
Proof.
  intros Hv Hstep. destruct (visible_cases _ _ _ Hv) as [Hi Hs].
  unfold layout_step in Hstep. rewrite Hi, Hs in Hstep.
  bind_inv Hstep. destruct a as [[x y] z]. injection Hstep as <-.
  unfold place_box. destruct (get_color (wheel st) (ltype l)) as [c w]. simpl.
  eexists. exists z. repeat split.
Qed.

(** X19.  Two visible layers that follow each other in the model get
    neighbouring boxes [spacing] apart in exact arithmetic, measured from
    the right edge of the first box to the left edge of the second, each
    taken at half its depth. *)
Theorem neighbours_spacing_apart (model : list layer) (st : layout_state)
    (img : Image) (bs : list Box) (n : nat) (l l' : layer) :
  layout cfg model = Ok st ->
  centered cfg st = Ok (img, bs) ->
  model !! n = Some l ->
  model !! S n = Some l' ->
  visible cfg (Z.of_nat n) l = true ->
  visible cfg (Z.of_nat (S n)) l' = true ->
  let k := length (visible_layers cfg (take n model)) in
  exists (b b' : Box),
    bs !! k = Some b /\ bs !! S k = Some b'
    /\ (x1 b' + de b' / 2 == x2 b + de b / 2 + inject_Z (spacing cfg))%Q.
Proof.
  intros Hrun Hc Hl Hl' Hv Hv' k0.
  destruct (centered_lookup cfg _ _ _ _ Hrun Hc) as (_ & Hlen & Hlook).
  destruct (layout_prefixes cfg _ _ _ _ Hrun Hl) as (s1 & s2 & H1 & H2 & Hstep).
  assert (Hk0 : k0 = length (boxes s1)).
  { unfold k0. eapply Forall2_length, layout_boxes_of_layers, H1. }
  destruct (layout_prefixes cfg _ _ _ _ Hrun Hl') as (s2' & s3 & H2' & H3 & Hstep').
  rewrite H2 in H2'. injection H2' as <-.
  destruct (layout_step_box _ _ _ _ Hv Hstep) as (b & z & Hb & Hx1 & Hx2 & Hz).
  destruct (layout_step_box _ _ _ _ Hv' Hstep') as (b' & z' & Hb' & Hx1' & _ & _).
  assert (Hmore : exists more, boxes st = boxes s3 ++ more).
  { unfold layout in Hrun, H3.
    rewrite <- (take_drop (S (S n)) model), layout_loop_app, H3 in Hrun.
    simpl in Hrun. eapply layout_loop_boxes_prefix, Hrun. }
  destruct Hmore as [more Hmore].
  rewrite Hb', Hb, <- !app_assoc in Hmore. simpl in Hmore.
  clearbody k0. subst k0. set (k := length (boxes s1)).
  assert (Hk : boxes st !! k = Some b).
  { rewrite Hmore. rewrite lookup_app_r by (unfold k; lia).
    replace (k - length (boxes s1))%nat with 0%nat by (unfold k; lia).
    reflexivity. }
  assert (Hk' : boxes st !! S k = Some b').
  { rewrite Hmore. rewrite lookup_app_r by (unfold k; lia).
    replace (S k - length (boxes s1))%nat with 1%nat by (unfold k; lia).
    reflexivity. }
  destruct (lookup_lt_is_Some_2 bs k) as [c Hck].
  { rewrite Hlen. eapply lookup_lt_Some, Hk. }
  destruct (lookup_lt_is_Some_2 bs (S k)) as [c' Hck'].
  { rewrite Hlen. eapply lookup_lt_Some, Hk'. }
  exists c, c'. split; [exact Hck |]. split; [exact Hck' |].
  destruct (Hlook k c Hck) as (u & Hu & _ & _ & ->).
  destruct (Hlook (S k) c' Hck') as (u' & Hu' & _ & _ & ->).
  rewrite Hk in Hu. injection Hu as <-.
  rewrite Hk' in Hu'. injection Hu' as <-.
  unfold center_box. simpl. rewrite Hx1', Hz, Hx2, Hx1. qlra.
Qed.

End Gap.

Lemma neighbours_spacing_apart_witness :
  exists st img bs b b',
    layout default_config [Conv2D 28 28 3; Dense 128; Dense 10] = Ok st
    /\ centered default_config st = Ok (img, bs)
    /\ bs !! 0%nat = Some b /\ bs !! 1%nat = Some b'
    /\ (x1 b' + de b' / 2 == x2 b + de b / 2 + 10)%Q.
Proof.
  destruct (layout default_config [Conv2D 28 28 3; Dense 128; Dense 10])
    as [st|e] eqn:Hrun; [| vm_compute in Hrun; discriminate].
  destruct (centered default_config st) as [[img bs]|e] eqn:Hc;
    [| vm_compute in Hrun; injection Hrun as <-; vm_compute in Hc; discriminate].
  destruct (neighbours_spacing_apart default_config
              [Conv2D 28 28 3; Dense 128; Dense 10] st img bs 0%nat
              (Conv2D 28 28 3) (Dense 128) Hrun Hc eq_refl eq_refl
              eq_refl eq_refl) as (b & b' & Hb & Hb' & Hgap).
  exists st, img, bs, b, b'.
  split; [reflexivity |]. split; [exact Hc |].
  split; [exact Hb |]. split; [exact Hb' | exact Hgap].
Defined.
